(** * SSD1306_OLED_HW_I2C_LIB: the driver over a logged two-wire bus

    A shallow embedding of [SSD1306_OLED_HW_I2C_LIB.cpp].  The AVR two-wire
    hardware is a state the driver steps: every register write that starts a
    bus action is appended to a log, and the status the hardware reports
    after each action is read from a feed the environment chooses.  All
    integers are [Z] with the C conversions to [uint8_t] and [uint16_t]
    written out. *)

From Stdlib Require Import String Ascii DecimalString.
From Stdlib Require Import ZArith List Lia Bool.
Import ListNotations.
Local Open Scope Z_scope.

(** ** Fixed-width integers *)

Definition u8 (z : Z) : Z := z mod 256.
Definition u16 (z : Z) : Z := z mod 65536.
Definition byte (z : Z) : Prop := 0 <= z < 256.

(** ** The machine the driver runs on *)

(** What the driver does to the outside world, in program order. *)
Inductive event : Type :=
| EvCli                      (* cli()                                  *)
| EvSei                      (* sei()                                  *)
| EvStart                    (* TWCR = TWINT|TWSTA|TWEN                *)
| EvAddr (sla : Z)           (* TWDR = SLA_W; TWCR = TWINT|TWEN        *)
| EvTx (data : Z)            (* TWDR = DATA;  TWCR = TWINT|TWEN        *)
| EvStop                     (* TWCR = TWINT|TWEN|TWSTO                *)
| EvPortD (v : Z)            (* PORTD = v                              *)
| EvDelay (ms : Z).          (* _delay_ms(ms)                          *)

(** [twsr_feed k] is the content of TWSR once the [k]-th bus action since
    reset has completed; the waits [while (!(TWCR & (1<<TWINT)));] are
    taken to end, the hardware raising TWINT after each action. *)
Record hw : Type := mkHw {
  twsr_feed : nat -> Z;
  bus_steps : nat;
  PORTD : Z;
  ssd1306_numdec_buffer : nat -> Z;
  log : list event
}.

Definition Bus (A : Type) : Type := hw -> A * hw.

Definition ret {A} (a : A) : Bus A := fun s => (a, s).
Definition bind {A B} (m : Bus A) (k : A -> Bus B) : Bus B :=
  fun s => let (a, s') := m s in k a s'.

Declare Scope bus_scope.
Delimit Scope bus_scope with bus.
Notation "x <- m ;; k" := (bind m (fun x => k))
  (at level 61, m at next level, right associativity) : bus_scope.
Notation "m ;; k" := (bind m (fun _ => k))
  (at level 61, right associativity) : bus_scope.
Local Open Scope bus_scope.

Definition exec {A} (m : Bus A) (s : hw) : hw := snd (m s).

Definition emit (e : event) : Bus unit :=
  fun s => (tt, mkHw (twsr_feed s) (bus_steps s) (PORTD s)
                     (ssd1306_numdec_buffer s) (log s ++ [e])).

(** A bus action: the register write is logged, the wait ends, and the
    caller gets [TWSR & 0xF8]. *)
Definition twi_action (e : event) : Bus Z :=
  fun s => (Z.land (twsr_feed s (bus_steps s)) 0xF8,
            mkHw (twsr_feed s) (S (bus_steps s)) (PORTD s)
                 (ssd1306_numdec_buffer s) (log s ++ [e])).

Definition write_PORTD (f : Z -> Z) : Bus unit :=
  fun s => let v := u8 (f (PORTD s)) in
           (tt, mkHw (twsr_feed s) (bus_steps s) v
                     (ssd1306_numdec_buffer s) (log s ++ [EvPortD v])).

Definition get_numdec_buffer : Bus (nat -> Z) :=
  fun s => (ssd1306_numdec_buffer s, s).

Definition set_numdec_buffer (b : nat -> Z) : Bus unit :=
  fun s => (tt, mkHw (twsr_feed s) (bus_steps s) (PORTD s) b (log s)).

(** [for (i = a; i < b; i++) body(i)].  Every loop of the driver has a
    bound that its counter type can hold, so the counter never wraps and
    the loop runs [b - a] times (none when [b <= a]). *)
Fixpoint for_from (n : nat) (i : Z) (body : Z -> Bus unit) : Bus unit :=
  match n with
  | O => ret tt
  | S n' => body i ;; for_from n' (i + 1) body
  end.

Definition for_range (a b : Z) (body : Z -> Bus unit) : Bus unit :=
  for_from (Z.to_nat (b - a)) a body.

(** ** Tables in program memory *)

Definition D_FONT6x8 : list Z :=
  [ 0x00; 0x00; 0x00; 0x00; 0x00;
    0x00; 0x00; 0x2f; 0x00; 0x00;
    0x00; 0x07; 0x00; 0x07; 0x00;
    0x14; 0x7f; 0x14; 0x7f; 0x14;
    0x24; 0x2a; 0x7f; 0x2a; 0x12;
    0x62; 0x64; 0x08; 0x13; 0x23;
    0x36; 0x49; 0x55; 0x22; 0x50;
    0x00; 0x05; 0x03; 0x00; 0x00;
    0x00; 0x1c; 0x22; 0x41; 0x00;
    0x00; 0x41; 0x22; 0x1c; 0x00;
    0x14; 0x08; 0x3E; 0x08; 0x14;
    0x08; 0x08; 0x3E; 0x08; 0x08;
    0x00; 0x00; 0xA0; 0x60; 0x00;
    0x08; 0x08; 0x08; 0x08; 0x08;
    0x00; 0x60; 0x60; 0x00; 0x00;
    0x20; 0x10; 0x08; 0x04; 0x02;
    0x3E; 0x51; 0x49; 0x45; 0x3E;
    0x00; 0x42; 0x7F; 0x40; 0x00;
    0x42; 0x61; 0x51; 0x49; 0x46;
    0x21; 0x41; 0x45; 0x4B; 0x31;
    0x18; 0x14; 0x12; 0x7F; 0x10;
    0x27; 0x45; 0x45; 0x45; 0x39;
    0x3C; 0x4A; 0x49; 0x49; 0x30;
    0x01; 0x71; 0x09; 0x05; 0x03;
    0x36; 0x49; 0x49; 0x49; 0x36;
    0x06; 0x49; 0x49; 0x29; 0x1E;
    0x00; 0x36; 0x36; 0x00; 0x00;
    0x00; 0x56; 0x36; 0x00; 0x00;
    0x08; 0x14; 0x22; 0x41; 0x00;
    0x14; 0x14; 0x14; 0x14; 0x14;
    0x00; 0x41; 0x22; 0x14; 0x08;
    0x02; 0x01; 0x51; 0x09; 0x06;
    0x32; 0x49; 0x59; 0x51; 0x3E;
    0x7C; 0x12; 0x11; 0x12; 0x7C;
    0x7F; 0x49; 0x49; 0x49; 0x36;
    0x3E; 0x41; 0x41; 0x41; 0x22;
    0x7F; 0x41; 0x41; 0x22; 0x1C;
    0x7F; 0x49; 0x49; 0x49; 0x41;
    0x7F; 0x09; 0x09; 0x09; 0x01;
    0x3E; 0x41; 0x49; 0x49; 0x7A;
    0x7F; 0x08; 0x08; 0x08; 0x7F;
    0x00; 0x41; 0x7F; 0x41; 0x00;
    0x20; 0x40; 0x41; 0x3F; 0x01;
    0x7F; 0x08; 0x14; 0x22; 0x41;
    0x7F; 0x40; 0x40; 0x40; 0x40;
    0x7F; 0x02; 0x0C; 0x02; 0x7F;
    0x7F; 0x04; 0x08; 0x10; 0x7F;
    0x3E; 0x41; 0x41; 0x41; 0x3E;
    0x7F; 0x09; 0x09; 0x09; 0x06;
    0x3E; 0x41; 0x51; 0x21; 0x5E;
    0x7F; 0x09; 0x19; 0x29; 0x46;
    0x46; 0x49; 0x49; 0x49; 0x31;
    0x01; 0x01; 0x7F; 0x01; 0x01;
    0x3F; 0x40; 0x40; 0x40; 0x3F;
    0x1F; 0x20; 0x40; 0x20; 0x1F;
    0x3F; 0x40; 0x38; 0x40; 0x3F;
    0x63; 0x14; 0x08; 0x14; 0x63;
    0x07; 0x08; 0x70; 0x08; 0x07;
    0x61; 0x51; 0x49; 0x45; 0x43;
    0x00; 0x7F; 0x41; 0x41; 0x00;
    0x55; 0x2A; 0x55; 0x2A; 0x55;
    0x00; 0x41; 0x41; 0x7F; 0x00;
    0x04; 0x02; 0x01; 0x02; 0x04;
    0x40; 0x40; 0x40; 0x40; 0x40;
    0x00; 0x01; 0x02; 0x04; 0x00;
    0x20; 0x54; 0x54; 0x54; 0x78;
    0x7F; 0x48; 0x44; 0x44; 0x38;
    0x38; 0x44; 0x44; 0x44; 0x20;
    0x38; 0x44; 0x44; 0x48; 0x7F;
    0x38; 0x54; 0x54; 0x54; 0x18;
    0x08; 0x7E; 0x09; 0x01; 0x02;
    0x18; 0xA4; 0xA4; 0xA4; 0x7C;
    0x7F; 0x08; 0x04; 0x04; 0x78;
    0x00; 0x44; 0x7D; 0x40; 0x00;
    0x40; 0x80; 0x84; 0x7D; 0x00;
    0x7F; 0x10; 0x28; 0x44; 0x00;
    0x00; 0x41; 0x7F; 0x40; 0x00;
    0x7C; 0x04; 0x18; 0x04; 0x78;
    0x7C; 0x08; 0x04; 0x04; 0x78;
    0x38; 0x44; 0x44; 0x44; 0x38;
    0xFC; 0x24; 0x24; 0x24; 0x18;
    0x18; 0x24; 0x24; 0x18; 0xFC;
    0x7C; 0x08; 0x04; 0x04; 0x08;
    0x48; 0x54; 0x54; 0x54; 0x20;
    0x04; 0x3F; 0x44; 0x40; 0x20;
    0x3C; 0x40; 0x40; 0x20; 0x7C;
    0x1C; 0x20; 0x40; 0x20; 0x1C;
    0x3C; 0x40; 0x30; 0x40; 0x3C;
    0x44; 0x28; 0x10; 0x28; 0x44;
    0x1C; 0xA0; 0xA0; 0xA0; 0x7C;
    0x44; 0x64; 0x54; 0x4C; 0x44 ].

Definition init_sequence : list Z :=
  [ 0xAE;
    0x20; 0x00;
    0xB0;
    0xC8;
    0x00;
    0x10;
    0x40;
    0x81; 0x00;
    0xA1;
    0xA6;
    0xA8; 0x3F;
    0xA4;
    0xD3; 0x00;
    0xD5;
    0xF0;
    0xD9; 0x22;
    0xDA; 0x12;
    0xDB;
    0x20;
    0x8D; 0x14;
    0xAF ].

(** Modelled from the spec: the macro [USINT2DECASCII_MAX_DIGITS] of the
    header, which is not among the sources; the spec gives the scratch
    buffer "the fixed maximum digit width (5) plus terminator". *)
Definition USINT2DECASCII_MAX_DIGITS : Z := 5.

(** ** Integer to decimal text *)

Definition powers : list Z := [10000; 1000; 100; 10; 1].

(** [while (num >= p) { digit++; num -= p; }] on the pair (digit, num).
    The fuel is never the reason the loop stops when it is at least [num]
    and [p] is positive ([sub_loop_exits] below). *)
Fixpoint sub_loop (fuel : nat) (p digit num : Z) : Z * Z :=
  match fuel with
  | O => (digit, num)
  | S fuel' =>
      if p <=? num then sub_loop fuel' p (digit + 1) (u16 (num - p))
      else (digit, num)
  end.

Definition store (buffer : nat -> Z) (pos : nat) (c : Z) : nat -> Z :=
  fun i => if Nat.eqb i pos then c else buffer i.

(** The state of the [for] loop of [usint2decascii]. *)
Record conv : Type := mkConv {
  cv_num : Z;
  cv_digits : Z;
  cv_buffer : nat -> Z
}.

(** The end of one turn of the loop, choice (3) of the source: blanks up
    to the first significant digit, whose position is kept in [digits]. *)
Definition place_digit (pos : nat) (digit num : Z) (c : conv) : conv :=
  let (digit, digits) :=
    if cv_digits c =? USINT2DECASCII_MAX_DIGITS - 1 then
      if digit =? 0 then
        if Z.of_nat pos <? USINT2DECASCII_MAX_DIGITS - 1
        then (-16, cv_digits c) else (digit, cv_digits c)
      else (digit, Z.of_nat pos)
    else (digit, cv_digits c) in
  mkConv num digits (store (cv_buffer c) pos (u8 (digit + 48))).

(** One turn of the loop. *)
Definition usint2decascii_step (pos : nat) (c : conv) : conv :=
  let p := nth pos powers 0 in
  let (digit, num) := sub_loop (Z.to_nat (cv_num c)) p 0 (cv_num c) in
  place_digit pos digit num c.

Definition usint2decascii (num : Z) (buffer : nat -> Z) : Z * (nat -> Z) :=
  let c := fold_left (fun c pos => usint2decascii_step pos c)
                     (seq 0 5)
                     (mkConv num (u8 (USINT2DECASCII_MAX_DIGITS - 1)) buffer) in
  (cv_digits c, cv_buffer c).

(** The cells of an array of [size] chars from [off] on: what a [char *]
    set to [array + off] can read. *)
Definition cells (buffer : nat -> Z) (off size : nat) : list Z :=
  map buffer (seq off (size - off)).

(** The C string at the head of a run of cells: the chars before the
    first NUL. *)
Fixpoint c_str (mem : list Z) : list Z :=
  match mem with
  | [] => []
  | c :: rest => if c =? 0 then [] else c :: c_str rest
  end.

(** ** A board to run the driver on *)

(** The hardware after reset on a bus where nothing answers: every status
    read is 0xF8, "no relevant state information". *)
Definition silent_bus : hw :=
  mkHw (fun _ => 0xF8) 0 0 (fun _ => 0) [].

(** The usual write address of the display, 0x3C shifted left by one. *)
Definition board_SLA_W : Z := 0x78.

(** The error LED on pin 4, as the demo sketch wires it. *)
Definition board_ERROR_PIN : Z := 4.

(** ** The driver *)

Section Driver.

Set Default Proof Using "Type".

(** Macros of the header [SSD1306_OLED_HW_I2C_LIB.h], which is not among
    the sources, and the content of program memory after the font table,
    which a glyph index past the table reads. *)
Variable SLA_W : Z.
Variable ERROR_PIN : Z.
Variable OLED_CMD_SET_COLUMN_RANGE : Z.
Variable OLED_CMD_SET_PAGE_RANGE : Z.
Variable progmem_past_font : Z -> Z.

Definition pgm_read_font (idx : Z) : Z :=
  nth (Z.to_nat idx) D_FONT6x8 (progmem_past_font idx).

Definition pgm_read_init (idx : Z) : Z :=
  nth (Z.to_nat idx) init_sequence 0.

Definition _delay_ms (ms : Z) : Bus unit := emit (EvDelay ms).

Definition D_ERROR : Bus unit :=
  for_range 0 10 (fun _ =>
    write_PORTD (fun p => Z.lxor p (Z.shiftl 1 ERROR_PIN)) ;;
    _delay_ms 300).

(** [if ((TWSR & 0xF8) != expect) D_ERROR();] *)
Definition check_status (st expect : Z) : Bus unit :=
  if st =? expect then ret tt else D_ERROR.

(** A bus action, the wait for it, and the check of its status. *)
Definition twi_checked (e : event) (expect : Z) : Bus unit :=
  st <- twi_action e ;;
  check_status st expect.

Definition D_TX (DATA : Z) : Bus unit :=
  twi_checked (EvTx (u8 DATA)) 0x28.

(** The body that [D_START_CMD] and [D_START_DAT] share; they differ in
    the control byte sent last. *)
Definition D_START (control : Z) : Bus unit :=
  emit EvCli ;;
  twi_checked EvStart 0x08 ;;
  twi_checked (EvAddr SLA_W) 0x18 ;;
  D_TX control.

Definition D_START_CMD : Bus unit := D_START 0x00.
Definition D_START_DAT : Bus unit := D_START 0x40.

Definition D_STOP : Bus unit :=
  emit EvStop ;;
  emit EvSei.

Definition D_INIT : Bus unit :=
  D_START_CMD ;;
  for_range 0 (Z.of_nat (List.length init_sequence))
            (fun i => D_TX (pgm_read_init i)) ;;
  D_TX OLED_CMD_SET_COLUMN_RANGE ;;
  D_TX 0x00 ;;
  D_TX 0x7F ;;
  D_TX OLED_CMD_SET_PAGE_RANGE ;;
  D_TX 0 ;;
  D_TX 0x07 ;;
  D_STOP.

Definition D_SETPOS (x y : Z) : Bus unit :=
  D_START_CMD ;;
  D_TX (0xB0 + y) ;;
  D_TX (Z.lor (Z.shiftr (Z.land x 0xF0) 4) 0x10) ;;
  D_TX (Z.land x 0x0F) ;;
  D_STOP.

Definition D_CLEAR : Bus unit :=
  D_SETPOS 0 0 ;;
  D_START_DAT ;;
  for_range 0 (128 * 8) (fun _ => D_TX 0) ;;
  D_STOP.

Definition D_ON : Bus unit :=
  D_START_CMD ;; D_TX 0xAF ;; D_STOP.

Definition D_OFF : Bus unit :=
  D_START_CMD ;; D_TX 0xAE ;; D_STOP.

Definition D_CONTRAST (contrast : Z) : Bus unit :=
  D_START_CMD ;; D_TX 0x81 ;; D_TX contrast ;; D_STOP.

Definition D_DRAW_HOR (xpos ypos length : Z) : Bus unit :=
  let ypage := u8 (ypos / 8) in
  let dot_byte := u8 (Z.shiftl 1 (ypos mod 8)) in
  D_SETPOS xpos ypage ;;
  D_START_DAT ;;
  for_range 0 length (fun _ => D_TX dot_byte) ;;
  D_STOP.

Definition D_DRAW_VERT (xpos ypos length : Z) : Bus unit :=
  let ypage_start := u8 (ypos / 8) in
  let ypage_end := u8 ((ypos + length) / 8) in
  let ypages_span := u8 (ypage_end - ypage_start) in
  let dot_byte_start := u8 (Z.shiftl 0xFF (ypos mod 8)) in
  let dot_byte_end := u8 (Z.shiftr 0xFF ((ypos + length) mod 8)) in
  if ypages_span =? 0 then
    D_SETPOS xpos ypage_start ;;
    D_START_DAT ;;
    D_TX (Z.land dot_byte_start dot_byte_end) ;;
    D_STOP
  else
    D_SETPOS xpos ypage_start ;;
    D_START_DAT ;;
    D_TX dot_byte_start ;;
    D_STOP ;;
    (if 1 <? ypages_span then
       for_range (ypage_start + 1) ypage_end (fun i =>
         D_SETPOS xpos i ;;
         D_START_DAT ;;
         D_TX 0xFF ;;
         D_STOP)
     else ret tt) ;;
    D_SETPOS xpos ypage_end ;;
    D_START_DAT ;;
    D_TX dot_byte_end ;;
    D_STOP.

Definition D_PRINT_CHAR (ch : Z) : Bus unit :=
  let c := u8 (ch - 32) in
  D_START_DAT ;;
  D_TX 0x00 ;;
  for_range 0 5 (fun i => D_TX (pgm_read_font (c * 5 + i))) ;;
  D_STOP.

(** [s] is the memory from the pointer on; [while ( *s ) D_PRINT_CHAR( *s++ )]
    stops at the first NUL. *)
Fixpoint D_PRINT_STR (s : list Z) : Bus unit :=
  match s with
  | [] => ret tt
  | ch :: s' => if ch =? 0 then ret tt else D_PRINT_CHAR ch ;; D_PRINT_STR s'
  end.

Definition numdec_size : nat := Z.to_nat (USINT2DECASCII_MAX_DIGITS + 1).

Definition D_PRINT_INT (num : Z) : Bus unit :=
  b <- get_numdec_buffer ;;
  set_numdec_buffer (store b (Z.to_nat USINT2DECASCII_MAX_DIGITS) 0) ;;
  b <- get_numdec_buffer ;;
  let (digits, b') := usint2decascii num b in
  set_numdec_buffer b' ;;
  b <- get_numdec_buffer ;;
  D_PRINT_STR (cells b (Z.to_nat digits) numdec_size).

(** The public operations, as one type.  A call converts its arguments to
    the parameter types: [uint8_t], [char] and, for [D_PRINT_INT],
    [uint16_t]; a string argument is the memory from the pointer on. *)
Inductive public_op : Type :=
| OpInit
| OpSetPos (x page : Z)
| OpClear
| OpOn
| OpOff
| OpContrast (contrast : Z)
| OpDrawHor (xpos ypos length : Z)
| OpDrawVert (xpos ypos length : Z)
| OpPrintChar (ch : Z)
| OpPrintStr (s : list Z)
| OpPrintInt (num : Z).

Definition run_op (o : public_op) : Bus unit :=
  match o with
  | OpInit => D_INIT
  | OpSetPos x page => D_SETPOS (u8 x) (u8 page)
  | OpClear => D_CLEAR
  | OpOn => D_ON
  | OpOff => D_OFF
  | OpContrast c => D_CONTRAST (u8 c)
  | OpDrawHor x y l => D_DRAW_HOR (u8 x) (u8 y) (u8 l)
  | OpDrawVert x y l => D_DRAW_VERT (u8 x) (u8 y) (u8 l)
  | OpPrintChar ch => D_PRINT_CHAR (u8 ch)
  | OpPrintStr s => D_PRINT_STR s
  | OpPrintInt n => D_PRINT_INT (u16 n)
  end.

(** ** What is seen on the bus *)

(** The events that drive the two wires. *)
Definition is_twi (e : event) : bool :=
  match e with
  | EvStart | EvAddr _ | EvTx _ | EvStop => true
  | _ => false
  end.

Definition traffic (l : list event) : list event := filter is_twi l.

Definition is_pin_write (e : event) : bool :=
  match e with EvPortD _ => true | _ => false end.

(** Writes to PORTD: [D_ERROR] makes ten. *)
Definition pin_writes (l : list event) : nat :=
  List.length (filter is_pin_write l).

(** The status the driver compares TWSR with after each action. *)
Definition expected_status (e : event) : option Z :=
  match e with
  | EvStart => Some 0x08
  | EvAddr _ => Some 0x18
  | EvTx _ => Some 0x28
  | _ => None
  end.

Definition acked (feed : nat -> Z) (k : nat) (expect : Z) : bool :=
  Z.land (feed k) 0xF8 =? expect.

(** Bus actions in [w]; those of them the hardware does not acknowledge
    when [w] is run from bus step [k] on. *)
Fixpoint actions (w : list event) : nat :=
  match w with
  | [] => O
  | e :: w' =>
      match expected_status e with
      | Some _ => S (actions w')
      | None => actions w'
      end
  end.

Fixpoint nacks (feed : nat -> Z) (k : nat) (w : list event) : nat :=
  match w with
  | [] => O
  | e :: w' =>
      match expected_status e with
      | Some st =>
          ((if acked feed k st then 0 else 1) + nacks feed (S k) w')%nat
      | None => nacks feed k w'
      end
  end.

(** A bus session: the control byte sent after the address, then the
    bytes of the stream. *)
Definition session : Type := (Z * list Z)%type.

Definition command (bytes : list Z) : session := (0x00, bytes).
Definition data (bytes : list Z) : session := (0x40, bytes).

Definition session_events (ss : session) : list event :=
  EvStart :: EvAddr SLA_W :: EvTx (fst ss) :: map EvTx (snd ss) ++ [EvStop].

Definition wire (l : list session) : list event :=
  flat_map session_events l.

(** The addressing command: page select, high nibble, low nibble. *)
Definition position (x page : Z) : session :=
  command [0xB0 + page; 0x10 + x / 16; x mod 16].

(** One byte put on one page at column [x]. *)
Definition page_write (x : Z) (pb : Z * Z) : list session :=
  [position x (fst pb); data [snd pb]].

Fixpoint zseq (a : Z) (n : nat) : list Z :=
  match n with
  | O => []
  | S n' => a :: zseq (a + 1) n'
  end.

(** The state of the two wires between sessions and inside one. *)
Inductive line : Type := Idle | Open.

Definition line_step (st : option line) (e : event) : option line :=
  match st, e with
  | Some Idle, EvStart => Some Open
  | Some Open, EvStop => Some Idle
  | Some Open, (EvAddr _ | EvTx _) => Some Open
  | Some _, (EvStart | EvStop | EvAddr _ | EvTx _) => None
  | _, _ => st
  end.

(** [None] when a session is opened inside another, closed when none is
    open, or a byte is sent outside one. *)
Definition line_after (st : line) (l : list event) : option line :=
  fold_left line_step l (Some st).

(** The char codes of a Rocq string. *)
Definition chars_of_string (t : String.string) : list Z :=
  map (fun a => Z.of_N (N_of_ascii a)) (String.list_ascii_of_string t).

(** The decimal numeral of [n] as the standard library writes it. *)
Definition decimal (n : Z) : String.string :=
  DecimalString.NilZero.string_of_uint (N.to_uint (Z.to_N n)).

(** The bytes [D_SETPOS] hands to [D_TX], before any assumption on the
    arguments. *)
Definition raw_position (x y : Z) : session :=
  command [u8 (0xB0 + y); u8 (Z.lor (Z.shiftr (Z.land x 0xF0) 4) 0x10);
           u8 (Z.land x 0x0F)].

(** The sessions of a vertical line, branch by branch, before any
    assumption on the arguments. *)
Definition vert_sessions (x y len : Z) : list session :=
  let ps := u8 (y / 8) in
  let pe := u8 ((y + len) / 8) in
  let span := u8 (pe - ps) in
  let b_start := u8 (Z.shiftl 0xFF (y mod 8)) in
  let b_end := u8 (Z.shiftr 0xFF ((y + len) mod 8)) in
  if span =? 0 then [raw_position x ps; data [u8 (Z.land b_start b_end)]]
  else
    [raw_position x ps; data [u8 b_start]]
    ++ flat_map (fun p => [raw_position x p; data [0xFF]])
                (if 1 <? span then zseq (ps + 1) (Z.to_nat (pe - (ps + 1)))
                 else [])
    ++ [raw_position x pe; data [u8 b_end]].

(** The glyph of a char: the leading blank column and five font columns. *)
Definition glyph (ch : Z) : session :=
  data (0x00 :: map (fun i => u8 (pgm_read_font (u8 (ch - 32) * 5 + i)))
                    (zseq 0 5)).

(** ** The conversion without its buffer *)

(** One turn of the loop on a blank buffer: the turn reads only [num] and
    [digits]. *)
Definition step_chars (pos : nat) (num digits : Z) : conv :=
  usint2decascii_step pos (mkConv num digits (fun _ => 0)).

(** The offset returned and the chars written when the loop runs over the
    positions [l]. *)
Fixpoint text_from (l : list nat) (num digits : Z) : Z * list Z :=
  match l with
  | [] => (digits, [])
  | pos :: l' =>
      let c := step_chars pos num digits in
      let (d, cs) := text_from l' (cv_num c) (cv_digits c) in
      (d, cv_buffer c pos :: cs)
  end.

Definition text (num : Z) : Z * list Z :=
  text_from (seq 0 5) num (u8 (USINT2DECASCII_MAX_DIGITS - 1)).

(** The same with each digit taken by division instead of counted. *)
Definition digit_step (pos : nat) (num digits : Z) : conv :=
  let p := nth pos powers 0 in
  place_digit pos (num / p) (num mod p) (mkConv num digits (fun _ => 0)).

Fixpoint text_div_from (l : list nat) (num digits : Z) : Z * list Z :=
  match l with
  | [] => (digits, [])
  | pos :: l' =>
      let c := digit_step pos num digits in
      let (d, cs) := text_div_from l' (cv_num c) (cv_digits c) in
      (d, cv_buffer c pos :: cs)
  end.

Definition text_div (num : Z) : Z * list Z :=
  text_div_from (seq 0 5) num (u8 (USINT2DECASCII_MAX_DIGITS - 1)).

(** The memory [D_PRINT_INT] hands to [D_PRINT_STR]: the scratch buffer
    from the returned offset to its last cell, the terminator. *)
Definition printed (num : Z) : list Z :=
  cells (fun i => nth i (snd (text num)) 0) (Z.to_nat (fst (text num)))
        numdec_size.

Definition with_buffer (s : hw) (b : nat -> Z) : hw :=
  mkHw (twsr_feed s) (bus_steps s) (PORTD s) b (log s).

Definition list_eqb (l1 l2 : list Z) : bool :=
  if list_eq_dec Z.eq_dec l1 l2 then true else false.

(** The check run on every [uint16_t], given the offset and chars the
    conversion yields: the offset is a position of the buffer, the chars
    from it are the decimal numeral, and the cell after them is the
    terminator. *)
Definition numeral_check (n : Z) (t : Z * list Z) : bool :=
  let (d, cs) := t in
  let b := fun i => nth i cs 0 in
  (0 <=? d) && (d <=? 4)
  && list_eqb (cells b (Z.to_nat d) 5) (chars_of_string (decimal n))
  && list_eqb (cells b (Z.to_nat d) numdec_size)
              (chars_of_string (decimal n) ++ [0]).

(** ** The vertical line, page by page *)

Definition ceil_div (a b : Z) : Z := (a + b - 1) / b.

(** [D_DRAW_VERT x y len] writes [bytes], one per page, on the pages from
    [y / 8] on, each with its own addressing command and data session. *)
Definition draws_pages (x y len : Z) (bytes : list Z) : Prop :=
  forall s,
    traffic (log (exec (D_DRAW_VERT x y len) s))
    = traffic (log s)
      ++ wire (flat_map (page_write x)
                        (combine (zseq (y / 8) (List.length bytes)) bytes)).

Definition first_last_middle (first last : Z) (bytes : list Z) : Prop :=
  nth 0 bytes 0 = first
  /\ nth (List.length bytes - 1) bytes 0 = last
  /\ forall i, (0 < i < List.length bytes - 1)%nat -> nth i bytes 0 = 0xFF.

(** The page writes of a vertical line counted by the ceiling of
    [(y mod 8 + len) / 8], with the start mask on the first page, the end
    mask on the last and [0xFF] between. *)
Definition vertical_line_by_ceiling (x y len : Z) : Prop :=
  exists bytes,
    draws_pages x y len bytes
    /\ Z.of_nat (List.length bytes) = ceil_div (y mod 8 + len) 8
    /\ first_last_middle (u8 (Z.shiftl 0xFF (y mod 8)))
                          (Z.shiftr 0xFF ((y + len) mod 8)) bytes.

(** What an operation does on any hardware: its traffic is [w], and
    [D_ERROR] blinks once for each action of [w] that is not acknowledged. *)
Definition runs (m : Bus unit) (w : list event) : Prop :=
  forall s,
    traffic (log (exec m s)) = traffic (log s) ++ w
    /\ bus_steps (exec m s) = (bus_steps s + actions w)%nat
    /\ twsr_feed (exec m s) = twsr_feed s
    /\ pin_writes (log (exec m s))
       = (pin_writes (log s) + 10 * nacks (twsr_feed s) (bus_steps s) w)%nat.

(** ** Interrupts *)

(** Whether interrupts are enabled, event by event; [None] once a bus
    action or a write to PORTD happens while they are. *)
Definition irq_step (st : option bool) (e : event) : option bool :=
  match st, e with
  | Some _, EvCli => Some false
  | Some _, EvSei => Some true
  | Some true, (EvStart | EvAddr _ | EvTx _ | EvStop | EvPortD _) => None
  | _, _ => st
  end.

Definition irq_after (enabled : bool) (l : list event) : option bool :=
  fold_left irq_step l (Some enabled).

(** [m] takes the interrupt flag from [a] to [b], with every bus action
    and pin write of its own made while interrupts are disabled. *)
Definition irq_moves (a b : bool) (m : Bus unit) : Prop :=
  forall s i,
    irq_after i (log s) = Some a -> irq_after i (log (exec m s)) = Some b.

(** ** The font *)

(** The five columns of the glyph of [ch] in the font table. *)
Definition font_columns (ch : Z) : list Z :=
  firstn 5 (skipn (Z.to_nat ((ch - 32) * 5)) D_FONT6x8).

(** The decimal numeral of [n] after the blanks that fill five positions;
    no char of the numeral is NUL. *)
Definition padded_check (n : Z) (t : Z * list Z) : bool :=
  let (d, cs) := t in
  list_eqb cs (repeat 32 (Z.to_nat d) ++ chars_of_string (decimal n))
  && forallb (fun c => negb (c =? 0)) (chars_of_string (decimal n)).

(** ** The demonstration *)

(** A string literal in memory: its chars and the terminator. *)
Definition literal (t : String.string) : list Z := chars_of_string t ++ [0].

(** [for (i = n; i > 0; i--) body(i)]. *)
Fixpoint for_down (n : nat) (body : Z -> Bus unit) : Bus unit :=
  match n with
  | O => ret tt
  | S n' => body (Z.of_nat (S n')) ;; for_down n' body
  end.

Definition D_DEMO : Bus unit :=
  D_CLEAR ;;
  D_DRAW_HOR 0 0 127 ;;
  D_DRAW_HOR 0 63 127 ;;
  D_DRAW_VERT 0 0 64 ;;
  D_DRAW_VERT 127 0 64 ;;
  D_SETPOS 25 1 ;;
  D_PRINT_STR (literal "DEMONSTRATION") ;;
  D_SETPOS 6 3 ;;
  D_PRINT_STR (literal "The display will be") ;;
  D_SETPOS 34 4 ;;
  D_PRINT_STR (literal "turned off") ;;
  D_SETPOS 30 5 ;;
  D_PRINT_STR (literal "temporarily") ;;
  _delay_ms 2000 ;;
  D_OFF ;;
  _delay_ms 500 ;;
  D_CLEAR ;;
  D_ON ;;
  _delay_ms 500 ;;
  D_SETPOS 2 3 ;;
  D_PRINT_STR (literal "   Counter = ") ;;
  for_down 800 (fun i => D_SETPOS (2 + 13 * 6) 3 ;; D_PRINT_INT i) ;;
  D_CLEAR ;;
  D_SETPOS 18 4 ;;
  D_PRINT_STR (literal "LOWEST CONTRAST") ;;
  _delay_ms 1000 ;;
  D_CONTRAST 0xFF ;;
  D_SETPOS 14 4 ;;
  D_PRINT_STR (literal "HIGHEST CONTRAST") ;;
  _delay_ms 1000 ;;
  D_CONTRAST 0x00.

(** The sessions of one turn of the counter loop of the demonstration. *)
Definition counter_sessions (i : Z) : list session :=
  position 80 3 :: map glyph (chars_of_string (decimal i)).

Fixpoint countdown (n : nat) : list Z :=
  match n with
  | O => []
  | S n' => Z.of_nat (S n') :: countdown n'
  end.

(** What the demonstration puts on the bus, call by call. *)
Definition print_sessions (t : String.string) : list session :=
  map glyph (chars_of_string t).

Definition demo_sessions : list session :=
  [position 0 0; data (repeat 0 1024)]
  ++ [position 0 0; data (repeat 0x01 127)]
  ++ [position 0 7; data (repeat 0x80 127)]
  ++ flat_map (fun p => page_write 0 (p, 0xFF)) (zseq 0 9)
  ++ flat_map (fun p => page_write 127 (p, 0xFF)) (zseq 0 9)
  ++ [position 25 1]
  ++ print_sessions "DEMONSTRATION"
  ++ [position 6 3]
  ++ print_sessions "The display will be"
  ++ [position 34 4]
  ++ print_sessions "turned off"
  ++ [position 30 5]
  ++ print_sessions "temporarily"
  ++ [command [0xAE]]
  ++ [position 0 0; data (repeat 0 1024)]
  ++ [command [0xAF]]
  ++ [position 2 3]
  ++ print_sessions "   Counter = "
  ++ flat_map counter_sessions (countdown 800)
  ++ [position 0 0; data (repeat 0 1024)]
  ++ [position 18 4]
  ++ print_sessions "LOWEST CONTRAST"
  ++ [command [0x81; 0xFF]]
  ++ [position 14 4]
  ++ print_sessions "HIGHEST CONTRAST"
  ++ [command [0x81; 0x00]].

(** * Properties *)

(** ** Lists of events *)

Lemma traffic_app (l1 l2 : list event) :
  traffic (l1 ++ l2) = traffic l1 ++ traffic l2.
Proof. apply filter_app. Qed.

Lemma pin_writes_app (l1 l2 : list event) :
  pin_writes (l1 ++ l2) = (pin_writes l1 + pin_writes l2)%nat.
Proof. unfold pin_writes. now rewrite filter_app, length_app. Qed.

Lemma actions_app (w1 w2 : list event) :
  actions (w1 ++ w2) = (actions w1 + actions w2)%nat.
Proof.
  induction w1 as [|e w1 IH]; simpl; [reflexivity|].
  destruct (expected_status e); rewrite IH; reflexivity.
Qed.

Lemma nacks_app (feed : nat -> Z) (w1 w2 : list event) :
  forall k,
    nacks feed k (w1 ++ w2)
    = (nacks feed k w1 + nacks feed (k + actions w1) w2)%nat.
Proof.
  induction w1 as [|e w1 IH]; intros k; simpl.
  - now rewrite Nat.add_0_r.
  - destruct (expected_status e); rewrite IH.
    + rewrite <- Nat.add_succ_comm. lia.
    + reflexivity.
Qed.

Lemma line_after_app (st : line) (l1 l2 : list event) :
  line_after st (l1 ++ l2)
  = match line_after st l1 with
    | Some st' => line_after st' l2
    | None => None
    end.
Proof.
  unfold line_after. rewrite fold_left_app.
  destruct (fold_left line_step l1 (Some st)) as [st'|]; [reflexivity|].
  induction l2 as [|e l2 IH]; simpl; [reflexivity|exact IH].
Qed.

Lemma line_after_traffic (l : list event) :
  forall st, line_after st (traffic l) = line_after st l.
Proof.
  unfold line_after.
  assert (G : forall o, fold_left line_step (traffic l) o
                        = fold_left line_step l o).
  { induction l as [|e l IH]; intros o; simpl; [reflexivity|].
    destruct e; simpl; rewrite IH; try reflexivity;
      destruct o as [[|]|]; reflexivity. }
  intros st. apply G.
Qed.

Lemma line_after_session (ss : session) :
  line_after Idle (session_events ss) = Some Idle.
Proof.
  destruct ss as [c bytes]. unfold session_events, line_after. simpl.
  rewrite fold_left_app. simpl.
  assert (G : fold_left line_step (map EvTx bytes) (Some Open) = Some Open).
  { induction bytes as [|b bytes IH]; simpl; [reflexivity|exact IH]. }
  now rewrite G.
Qed.

Lemma line_after_wire (l : list session) :
  line_after Idle (wire l) = Some Idle.
Proof.
  induction l as [|ss l IH]; [reflexivity|].
  change (wire (ss :: l)) with (session_events ss ++ wire l).
  now rewrite line_after_app, line_after_session.
Qed.

(** ** The judgement [runs] *)

Lemma exec_bind {A B} (m : Bus A) (k : A -> Bus B) (s : hw) :
  exec (bind m k) s = exec (k (fst (m s))) (exec m s).
Proof. unfold exec, bind. destruct (m s); reflexivity. Qed.

Lemma runs_eq (m : Bus unit) (w w' : list event) :
  runs m w -> w = w' -> runs m w'.
Proof. now intros H <-. Qed.

Lemma runs_ret : runs (ret tt) [].
Proof.
  intros s. unfold exec; simpl. rewrite app_nil_r. repeat split; lia.
Qed.

Lemma runs_seq (m k : Bus unit) (w1 w2 : list event) :
  runs m w1 -> runs k w2 -> runs (m ;; k) (w1 ++ w2).
Proof.
  intros Hm Hk s. rewrite exec_bind.
  destruct (Hm s) as (T1 & S1 & F1 & P1).
  destruct (Hk (exec m s)) as (T2 & S2 & F2 & P2).
  rewrite T2, S2, F2, P2, T1, S1, F1, P1, actions_app, nacks_app, app_assoc.
  repeat split; lia.
Qed.

Lemma runs_for_from (body : Z -> Bus unit) (w : Z -> list event) :
  (forall i, runs (body i) (w i)) ->
  forall n a, runs (for_from n a body) (flat_map w (zseq a n)).
Proof.
  intros Hb. induction n as [|n IH]; intros a; simpl.
  - apply runs_ret.
  - apply runs_seq; [apply Hb | apply IH].
Qed.

Lemma flat_map_single {A B} (f : A -> B) (l : list A) :
  flat_map (fun a => [f a]) l = map f l.
Proof. induction l as [|a l IH]; simpl; congruence. Qed.

Lemma zseq_length (n : nat) : forall a, List.length (zseq a n) = n.
Proof. induction n as [|n IH]; intros a; simpl; [|rewrite IH]; reflexivity. Qed.

Lemma map_const_zseq {B} (b : B) (n : nat) :
  forall a, map (fun _ => b) (zseq a n) = repeat b n.
Proof. induction n as [|n IH]; intros a; simpl; [|rewrite IH]; reflexivity. Qed.

(** The error handler: ten pin writes, nothing on the bus. *)
Lemma exec_delay (ms : Z) (s : hw) :
  log (exec (_delay_ms ms) s) = log s ++ [EvDelay ms]
  /\ bus_steps (exec (_delay_ms ms) s) = bus_steps s
  /\ twsr_feed (exec (_delay_ms ms) s) = twsr_feed s.
Proof. repeat split. Qed.

Lemma exec_write_PORTD (f : Z -> Z) (s : hw) :
  log (exec (write_PORTD f) s) = log s ++ [EvPortD (u8 (f (PORTD s)))]
  /\ bus_steps (exec (write_PORTD f) s) = bus_steps s
  /\ twsr_feed (exec (write_PORTD f) s) = twsr_feed s.
Proof. repeat split. Qed.

Lemma blink_effect (n : nat) :
  forall i s,
    let m := for_from n i (fun _ =>
               write_PORTD (fun p => Z.lxor p (Z.shiftl 1 ERROR_PIN)) ;;
               _delay_ms 300) in
    traffic (log (exec m s)) = traffic (log s)
    /\ bus_steps (exec m s) = bus_steps s
    /\ twsr_feed (exec m s) = twsr_feed s
    /\ pin_writes (log (exec m s)) = (pin_writes (log s) + n)%nat.
Proof.
  induction n as [|n IH]; intros i s; cbn zeta.
  - unfold exec; simpl. repeat split; lia.
  - cbn [for_from]. rewrite !exec_bind.
    match goal with |- context [exec (for_from n _ _) ?t] =>
      destruct (IH (i + 1) t) as (T & S1 & F & P) end.
    cbn zeta in T, S1, F, P. rewrite T, S1, F, P. clear T S1 F P.
    match goal with |- context [exec (_delay_ms 300) ?t] =>
      destruct (exec_delay 300 t) as (L & S1 & F) end.
    rewrite L, S1, F. clear L S1 F.
    match goal with |- context [exec (write_PORTD ?f) ?t] =>
      destruct (exec_write_PORTD f t) as (L & S1 & F) end.
    rewrite L, S1, F. clear L S1 F.
    rewrite !traffic_app, !pin_writes_app.
    change (traffic [EvDelay 300]) with (@nil event).
    change (pin_writes [EvDelay 300]) with 0%nat.
    match goal with |- context [EvPortD ?v] =>
      change (traffic [EvPortD v]) with (@nil event);
      change (pin_writes [EvPortD v]) with 1%nat end.
    rewrite !app_nil_r. repeat split; lia.
Qed.

Lemma D_ERROR_effect (s : hw) :
  traffic (log (exec D_ERROR s)) = traffic (log s)
  /\ bus_steps (exec D_ERROR s) = bus_steps s
  /\ twsr_feed (exec D_ERROR s) = twsr_feed s
  /\ pin_writes (log (exec D_ERROR s)) = (pin_writes (log s) + 10)%nat.
Proof. exact (blink_effect 10 0 s). Qed.

(** A bus action followed by its status check. *)
Lemma runs_action (e : event) (expect : Z) :
  expected_status e = Some expect ->
  runs (twi_checked e expect) [e].
Proof.
  intros He s. unfold twi_checked. rewrite exec_bind.
  assert (Tw : is_twi e = true /\ is_pin_write e = false)
    by (destruct e; try discriminate; split; reflexivity).
  destruct Tw as [Tw Pw].
  unfold check_status. cbn [twi_action fst]. cbn [actions nacks].
  rewrite He. unfold acked.
  destruct (Z.land (twsr_feed s (bus_steps s)) 248 =? expect).
  - unfold exec, twi_action, ret; simpl.
    rewrite traffic_app, pin_writes_app; unfold traffic, pin_writes; simpl.
    rewrite Tw, Pw; simpl. repeat split; lia.
  - match goal with |- context [exec D_ERROR ?t] =>
      destruct (D_ERROR_effect t) as (T & S1 & F & P) end.
    rewrite T, S1, F, P. unfold exec, twi_action; simpl.
    rewrite traffic_app, pin_writes_app; unfold traffic, pin_writes; simpl.
    rewrite Tw, Pw; simpl. repeat split; lia.
Qed.

Lemma runs_D_TX (DATA : Z) : runs (D_TX DATA) [EvTx (u8 DATA)].
Proof. now apply runs_action. Qed.

Lemma runs_silent (e : event) :
  is_twi e = false -> is_pin_write e = false -> runs (emit e) [].
Proof.
  intros Tw Pw s. unfold exec, emit; simpl.
  rewrite traffic_app, pin_writes_app; unfold traffic, pin_writes; simpl.
  rewrite Tw, Pw; simpl. rewrite !app_nil_r. repeat split; lia.
Qed.

Lemma runs_D_STOP : runs D_STOP [EvStop].
Proof.
  unfold D_STOP. apply runs_eq with (w := [EvStop] ++ []); [|reflexivity].
  apply runs_seq; [|now apply runs_silent].
  intros s. unfold exec, emit; simpl.
  rewrite traffic_app, pin_writes_app; unfold traffic, pin_writes; simpl.
  repeat split; lia.
Qed.

Lemma runs_D_START (control : Z) :
  runs (D_START control) [EvStart; EvAddr SLA_W; EvTx (u8 control)].
Proof.
  unfold D_START.
  apply runs_eq with
    (w := [] ++ [EvStart] ++ [EvAddr SLA_W] ++ [EvTx (u8 control)]);
    [|reflexivity].
  repeat apply runs_seq;
    first [now apply runs_silent | now apply runs_action].
Qed.

(** A whole session: open, a body that only transmits, close. *)
Lemma runs_session (control : Z) (body : Bus unit) (bytes : list Z) :
  runs body (map EvTx bytes) ->
  runs (D_START control ;; body ;; D_STOP)
       (session_events (u8 control, bytes)).
Proof.
  intros Hb. eapply runs_eq.
  - apply runs_seq; [apply runs_D_START|].
    apply runs_seq; [exact Hb | apply runs_D_STOP].
  - reflexivity.
Qed.

Lemma runs_D_START_CMD :
  runs D_START_CMD [EvStart; EvAddr SLA_W; EvTx 0x00].
Proof. exact (runs_D_START 0x00). Qed.

Lemma runs_D_START_DAT :
  runs D_START_DAT [EvStart; EvAddr SLA_W; EvTx 0x40].
Proof. exact (runs_D_START 0x40). Qed.

Lemma runs_tx_loop (f : Z -> Z) (a b : Z) :
  runs (for_range a b (fun i => D_TX (f i)))
       (map (fun i => EvTx (u8 (f i))) (zseq a (Z.to_nat (b - a)))).
Proof.
  unfold for_range. rewrite <- flat_map_single.
  apply runs_for_from. intros i. apply runs_D_TX.
Qed.

Lemma runs_tx_repeat (d : Z) (n : Z) :
  runs (for_range 0 n (fun _ => D_TX d))
       (map EvTx (repeat (u8 d) (Z.to_nat n))).
Proof.
  eapply runs_eq; [apply (runs_tx_loop (fun _ => d))|].
  rewrite Z.sub_0_r, <- (map_const_zseq (u8 d) (Z.to_nat n) 0), map_map.
  reflexivity.
Qed.

(** Splits a sequence of driver calls into its calls. *)
Ltac runs_calls :=
  repeat first
    [ apply runs_D_START_CMD | apply runs_D_START_DAT | apply runs_D_TX
    | apply runs_D_STOP | apply runs_tx_repeat | apply runs_tx_loop
    | apply runs_ret | eapply runs_seq ].

(** ** Fixed-width arithmetic *)

Lemma u8_small (z : Z) : byte z -> u8 z = z.
Proof. intros H. now apply Z.mod_small. Qed.

Lemma u8_byte (z : Z) : byte (u8 z).
Proof. unfold byte, u8. apply Z.mod_pos_bound. lia. Qed.

Lemma in_zseq (n : nat) :
  forall a z, a <= z < a + Z.of_nat n -> In z (zseq a n).
Proof.
  induction n as [|n IH]; intros a z H; simpl.
  - lia.
  - destruct (Z.eq_dec a z) as [->|N]; [now left|right].
    apply IH. lia.
Qed.

(** A check that holds on every [z] below [n] holds by running it. *)
Lemma forall_below (f : Z -> bool) (n : nat) :
  forallb f (zseq 0 n) = true ->
  forall z, 0 <= z < Z.of_nat n -> f z = true.
Proof.
  intros H z Hz. rewrite forallb_forall in H. apply H.
  apply in_zseq. lia.
Qed.

Lemma high_nibble (x : Z) :
  byte x -> Z.lor (Z.shiftr (Z.land x 0xF0) 4) 0x10 = 0x10 + x / 16.
Proof.
  intros H.
  apply Z.eqb_eq.
  apply (forall_below
           (fun x => Z.lor (Z.shiftr (Z.land x 0xF0) 4) 0x10 =? 0x10 + x / 16)
           256); [vm_compute; reflexivity | exact H].
Qed.

Lemma low_nibble (x : Z) : byte x -> Z.land x 0x0F = x mod 16.
Proof.
  intros H. change 0x0F with (Z.ones 4). rewrite Z.land_ones by lia.
  reflexivity.
Qed.

(** ** Each operation on the bus *)

Lemma runs_D_SETPOS_raw (x y : Z) :
  runs (D_SETPOS x y) (session_events (raw_position x y)).
Proof.
  unfold D_SETPOS. eapply runs_eq; [runs_calls | reflexivity].
Qed.

Lemma raw_position_eq (x page : Z) :
  byte x -> 0 <= page < 80 -> raw_position x page = position x page.
Proof.
  intros Hx Hp. unfold raw_position, position.
  rewrite high_nibble, low_nibble by assumption.
  assert (B : 0 <= x / 16 < 16)
    by (unfold byte in Hx; split;
        [apply Z.div_pos | apply Z.div_lt_upper_bound]; lia).
  assert (M : 0 <= x mod 16 < 16) by (apply Z.mod_pos_bound; lia).
  rewrite !u8_small by (unfold byte; lia). reflexivity.
Qed.

Lemma runs_D_SETPOS (x page : Z) :
  byte x -> 0 <= page < 80 ->
  runs (D_SETPOS x page) (session_events (position x page)).
Proof.
  intros Hx Hp. rewrite <- raw_position_eq by assumption.
  apply runs_D_SETPOS_raw.
Qed.

Lemma runs_D_ON : runs D_ON (wire [command [0xAF]]).
Proof. unfold D_ON. eapply runs_eq; [runs_calls | reflexivity]. Qed.

Lemma runs_D_OFF : runs D_OFF (wire [command [0xAE]]).
Proof. unfold D_OFF. eapply runs_eq; [runs_calls | reflexivity]. Qed.

Lemma runs_D_CONTRAST (contrast : Z) :
  runs (D_CONTRAST contrast) (wire [command [0x81; u8 contrast]]).
Proof. unfold D_CONTRAST. eapply runs_eq; [runs_calls | reflexivity]. Qed.

Lemma runs_D_INIT :
  runs D_INIT
       (wire [command (init_sequence
                       ++ [u8 OLED_CMD_SET_COLUMN_RANGE; 0x00; 0x7F;
                           u8 OLED_CMD_SET_PAGE_RANGE; 0x00; 0x07])]).
Proof.
  unfold D_INIT. eapply runs_eq; [runs_calls | reflexivity].
Qed.

Ltac runs_ops :=
  repeat first
    [ apply runs_D_SETPOS_raw | apply runs_D_START_CMD
    | apply runs_D_START_DAT | apply runs_D_TX
    | apply runs_D_STOP | apply runs_tx_repeat | apply runs_tx_loop
    | apply runs_ret | eapply runs_seq ].

Lemma wire_app (l1 l2 : list session) : wire (l1 ++ l2) = wire l1 ++ wire l2.
Proof. apply flat_map_app. Qed.

Lemma wire_flat_map {A} (f : A -> list session) (l : list A) :
  wire (flat_map f l) = flat_map (fun a => wire (f a)) l.
Proof.
  induction l as [|a l IH]; simpl; [reflexivity|].
  now rewrite wire_app, IH.
Qed.

Lemma wire_one (a : session) : wire [a] = session_events a.
Proof. unfold wire. cbn [flat_map]. apply app_nil_r. Qed.

Lemma wire_two (a b : session) :
  wire [a; b] = session_events a ++ session_events b.
Proof. unfold wire. cbn [flat_map]. now rewrite app_nil_r. Qed.

Lemma runs_D_CLEAR :
  runs D_CLEAR (wire [position 0 0; data (repeat 0 1024)]).
Proof.
  unfold D_CLEAR. eapply runs_eq; [runs_ops | reflexivity].
Qed.

Lemma dot_byte_small (y : Z) : byte (Z.shiftl 1 (y mod 8)).
Proof.
  assert (R : 0 <= y mod 8 < 8) by (apply Z.mod_pos_bound; lia).
  rewrite Z.shiftl_1_l. unfold byte. split; [apply Z.pow_nonneg; lia|].
  apply Z.lt_le_trans with (2 ^ 8); [apply Z.pow_lt_mono_r; lia | reflexivity].
Qed.

Lemma page_of_byte (y : Z) : byte y -> 0 <= y / 8 < 32.
Proof.
  unfold byte. intros H. split;
    [apply Z.div_pos | apply Z.div_lt_upper_bound]; lia.
Qed.

Lemma runs_D_DRAW_HOR_raw (x y len : Z) :
  runs (D_DRAW_HOR x y len)
       (wire [raw_position x (u8 (y / 8));
              data (repeat (u8 (u8 (Z.shiftl 1 (y mod 8)))) (Z.to_nat len))]).
Proof.
  unfold D_DRAW_HOR. eapply runs_eq; [runs_ops|].
  rewrite wire_two. reflexivity.
Qed.

Lemma runs_D_DRAW_HOR (x y len : Z) :
  byte x -> byte y ->
  runs (D_DRAW_HOR x y len)
       (wire [position x (y / 8);
              data (repeat (Z.shiftl 1 (y mod 8)) (Z.to_nat len))]).
Proof.
  intros Hx Hy. pose proof (page_of_byte y Hy) as Hp.
  eapply runs_eq; [apply runs_D_DRAW_HOR_raw|].
  rewrite (u8_small (y / 8)) by (unfold byte; lia).
  rewrite raw_position_eq by (assumption || lia).
  rewrite !(u8_small (Z.shiftl 1 (y mod 8))) by apply dot_byte_small.
  reflexivity.
Qed.

(** One byte written to one page, as the vertical line does it. *)
Lemma runs_page_write_raw (x p b : Z) :
  runs (D_SETPOS x p ;; D_START_DAT ;; D_TX b ;; D_STOP)
       (wire [raw_position x p; data [u8 b]]).
Proof. eapply runs_eq; [runs_ops | rewrite wire_two; reflexivity]. Qed.

Lemma runs_page_write (x p b : Z) :
  byte x -> 0 <= p < 80 -> byte b ->
  runs (D_SETPOS x p ;; D_START_DAT ;; D_TX b ;; D_STOP)
       (wire (page_write x (p, b))).
Proof.
  intros Hx Hp Hb. eapply runs_eq; [apply runs_page_write_raw|].
  unfold page_write. cbn [fst snd].
  now rewrite raw_position_eq, u8_small.
Qed.

Lemma runs_page_writes (x b : Z) (n : nat) :
  byte x -> byte b ->
  forall a, 0 <= a -> a + Z.of_nat n <= 80 ->
  runs (for_from n a (fun i => D_SETPOS x i ;; D_START_DAT ;; D_TX b ;; D_STOP))
       (wire (flat_map (fun p => page_write x (p, b)) (zseq a n))).
Proof.
  intros Hx Hb. induction n as [|n IH]; intros a Ha Hn.
  - apply runs_ret.
  - cbn [for_from zseq flat_map]. rewrite wire_app.
    apply runs_seq.
    + apply runs_page_write; (assumption || lia).
    + apply IH; lia.
Qed.

Lemma runs_page_writes_raw (x b : Z) (n : nat) (a : Z) :
  runs (for_from n a (fun i => D_SETPOS x i ;; D_START_DAT ;; D_TX b ;; D_STOP))
       (flat_map (fun p => wire [raw_position x p; data [u8 b]]) (zseq a n)).
Proof. apply runs_for_from. intros i. apply runs_page_write_raw. Qed.

Lemma runs_D_DRAW_VERT_raw (x y len : Z) :
  runs (D_DRAW_VERT x y len) (wire (vert_sessions x y len)).
Proof.
  unfold D_DRAW_VERT, vert_sessions.
  destruct (u8 (u8 ((y + len) / 8) - u8 (y / 8)) =? 0).
  - apply runs_page_write_raw.
  - rewrite !wire_app, wire_flat_map.
    destruct (1 <? u8 (u8 ((y + len) / 8) - u8 (y / 8))).
    + eapply runs_eq.
      * eapply runs_seq; [apply runs_D_SETPOS_raw|].
        eapply runs_seq; [apply runs_D_START_DAT|].
        eapply runs_seq; [apply runs_D_TX|].
        eapply runs_seq; [apply runs_D_STOP|].
        eapply runs_seq; [apply runs_page_writes_raw|].
        apply runs_page_write_raw.
      * rewrite !wire_two, <- !app_assoc. reflexivity.
    + eapply runs_eq.
      * eapply runs_seq; [apply runs_D_SETPOS_raw|].
        eapply runs_seq; [apply runs_D_START_DAT|].
        eapply runs_seq; [apply runs_D_TX|].
        eapply runs_seq; [apply runs_D_STOP|].
        eapply runs_seq; [apply runs_ret|].
        apply runs_page_write_raw.
      * rewrite !wire_two, <- !app_assoc. reflexivity.
Qed.

(** ** The masks and pages of a vertical line *)

Lemma masks_in_page (r e : Z) :
  0 <= r < 8 -> 0 <= e < 8 ->
  u8 (Z.shiftr 0xFF e) = Z.shiftr 0xFF e
  /\ u8 (Z.land (u8 (Z.shiftl 0xFF r)) (Z.shiftr 0xFF e))
     = Z.land (Z.shiftl 0xFF r) (Z.shiftr 0xFF e)
  /\ byte (Z.shiftr 0xFF e)
  /\ byte (Z.land (Z.shiftl 0xFF r) (Z.shiftr 0xFF e)).
Proof.
  intros Hr He.
  assert (R : r = 0 \/ r = 1 \/ r = 2 \/ r = 3 \/ r = 4 \/ r = 5 \/ r = 6
              \/ r = 7) by lia.
  assert (E : e = 0 \/ e = 1 \/ e = 2 \/ e = 3 \/ e = 4 \/ e = 5 \/ e = 6
              \/ e = 7) by lia.
  unfold byte.
  repeat (destruct R as [->|R]); try subst r;
    repeat (destruct E as [->|E]); try subst e;
    vm_compute; repeat split; first [reflexivity | discriminate].
Qed.

Lemma raw_pages_eq (x b : Z) (n : nat) :
  byte x ->
  forall a, 0 <= a -> a + Z.of_nat n <= 80 ->
  flat_map (fun p => [raw_position x p; data [b]]) (zseq a n)
  = flat_map (fun p => page_write x (p, b)) (zseq a n).
Proof.
  intros Hx. induction n as [|n IH]; intros a Ha Hn; [reflexivity|].
  cbn [zseq flat_map]. rewrite IH by lia.
  rewrite raw_position_eq by (assumption || lia). reflexivity.
Qed.

Lemma vert_pages (y len : Z) :
  byte y -> byte len ->
  0 <= y / 8 < 32 /\ y / 8 <= (y + len) / 8 < 64
  /\ 0 <= y mod 8 < 8 /\ 0 <= (y + len) mod 8 < 8.
Proof.
  unfold byte. intros Hy Hl.
  clear progmem_past_font. Z.to_euclidean_division_equations. lia.
Qed.

(** Off a page boundary, the pages from that of [y] to that of [y + len]
    are as many as the ceiling says. *)
Lemma vert_count (y len : Z) :
  0 <= y -> 0 <= len ->
  y / 8 <= (y + len) / 8
  /\ ((y + len) mod 8 <> 0 ->
      ceil_div (y mod 8 + len) 8 = (y + len) / 8 - y / 8 + 1).
Proof.
  intros Hy Hl. unfold ceil_div.
  clear progmem_past_font. Z.to_euclidean_division_equations. lia.
Qed.

Lemma vert_sessions_single (x y len : Z) :
  byte x -> byte y -> byte len ->
  (y + len) / 8 = y / 8 ->
  vert_sessions x y len
  = page_write x (y / 8, Z.land (Z.shiftl 0xFF (y mod 8))
                                (Z.shiftr 0xFF ((y + len) mod 8))).
Proof.
  intros Hx Hy Hl Hp.
  destruct (vert_pages y len Hy Hl) as (P1 & P2 & R & E).
  destruct (masks_in_page _ _ R E) as (M1 & M2 & _).
  unfold vert_sessions. rewrite Hp.
  rewrite (u8_small (y / 8)) by (unfold byte; lia).
  rewrite Z.sub_diag. change (u8 0 =? 0) with true. cbv iota.
  rewrite M1, M2, raw_position_eq by (assumption || lia). reflexivity.
Qed.

Lemma vert_sessions_multi (x y len : Z) :
  byte x -> byte y -> byte len ->
  y / 8 < (y + len) / 8 ->
  vert_sessions x y len
  = page_write x (y / 8, u8 (Z.shiftl 0xFF (y mod 8)))
    ++ flat_map (fun p => page_write x (p, 0xFF))
                (zseq (y / 8 + 1) (Z.to_nat ((y + len) / 8 - (y / 8 + 1))))
    ++ page_write x ((y + len) / 8, Z.shiftr 0xFF ((y + len) mod 8)).
Proof.
  intros Hx Hy Hl Hp.
  destruct (vert_pages y len Hy Hl) as (P1 & P2 & R & E).
  destruct (masks_in_page _ _ R E) as (M1 & _).
  unfold vert_sessions.
  rewrite (u8_small (y / 8)), (u8_small ((y + len) / 8)) by (unfold byte; lia).
  rewrite (u8_small ((y + len) / 8 - y / 8)) by (unfold byte; lia).
  destruct (Z.eqb_spec ((y + len) / 8 - y / 8) 0) as [Z0|_]; [lia|].
  rewrite M1, (u8_small (u8 _)) by apply u8_byte. rewrite M1.
  rewrite !raw_position_eq by (assumption || lia).
  f_equal.
  destruct (Z.ltb_spec 1 ((y + len) / 8 - y / 8)) as [L|L].
  - rewrite raw_pages_eq by (assumption || lia). reflexivity.
  - replace (Z.to_nat ((y + len) / 8 - (y / 8 + 1))) with O by lia.
    reflexivity.
Qed.

(** ** Integer to decimal text *)

(** The subtraction loop ends by its own test, with the quotient counted
    and the remainder left. *)
Lemma sub_loop_exits (fuel : nat) :
  forall p digit num,
    0 < p -> 0 <= num < 65536 -> (Z.to_nat num <= fuel)%nat ->
    sub_loop fuel p digit num = (digit + num / p, num mod p).
Proof.
  induction fuel as [|fuel IH]; intros p digit num Hp Hn Hf.
  - assert (num = 0) by lia. subst num. simpl.
    rewrite Z.div_0_l, Z.mod_0_l by lia. now rewrite Z.add_0_r.
  - cbn [sub_loop]. destruct (Z.leb_spec p num) as [L|L].
    + unfold u16. rewrite (Z.mod_small (num - p)) by lia.
      rewrite IH by lia.
      replace (num - p) with (num + (-1) * p) by ring.
      rewrite Z.div_add, Z.mod_add by lia.
      f_equal. ring.
    + rewrite Z.div_small, Z.mod_small by lia. now rewrite Z.add_0_r.
Qed.

Lemma powers_positive (pos : nat) : (pos < 5)%nat -> 0 < nth pos powers 0.
Proof.
  intros H. do 5 (destruct pos as [|pos]; [reflexivity|]). lia.
Qed.

(** A turn of the loop touches one cell and reads no cell. *)
Lemma step_frame (pos : nat) (c : conv) :
  let c' := step_chars pos (cv_num c) (cv_digits c) in
  cv_num (usint2decascii_step pos c) = cv_num c'
  /\ cv_digits (usint2decascii_step pos c) = cv_digits c'
  /\ forall i, cv_buffer (usint2decascii_step pos c) i
               = if Nat.eqb i pos then cv_buffer c' pos else cv_buffer c i.
Proof.
  cbn zeta. unfold step_chars, usint2decascii_step. cbn [cv_num cv_digits].
  destruct (sub_loop (Z.to_nat (cv_num c)) (nth pos powers 0) 0 (cv_num c))
    as [digit num].
  unfold place_digit. cbn [cv_digits cv_buffer].
  destruct (if cv_digits c =? USINT2DECASCII_MAX_DIGITS - 1
            then if digit =? 0
                 then if Z.of_nat pos <? USINT2DECASCII_MAX_DIGITS - 1
                      then (-16, cv_digits c) else (digit, cv_digits c)
                 else (digit, Z.of_nat pos)
            else (digit, cv_digits c)) as [dg ds].
  cbn [cv_num cv_digits cv_buffer]. unfold store.
  rewrite Nat.eqb_refl. repeat split.
Qed.

Lemma fold_text (m : nat) :
  forall k c,
    let r := fold_left (fun c pos => usint2decascii_step pos c) (seq k m) c in
    let t := text_from (seq k m) (cv_num c) (cv_digits c) in
    cv_digits r = fst t
    /\ List.length (snd t) = m
    /\ forall i, cv_buffer r i
                 = if (i <? k)%nat then cv_buffer c i
                   else nth (i - k) (snd t) (cv_buffer c i).
Proof.
  induction m as [|m IH]; intros k c; cbn zeta.
  - cbn [seq fold_left text_from fst snd]. repeat split.
    intros i. destruct (i <? k)%nat; [reflexivity|]. now destruct (i - k)%nat.
  - cbn [seq fold_left text_from].
    destruct (step_frame k c) as (N & D & B). cbn zeta in N, D, B.
    destruct (IH (S k) (usint2decascii_step k c)) as (D' & L' & B').
    cbn zeta in D', L', B'. rewrite N, D in D', L', B'.
    destruct (text_from (seq (S k) m)
                (cv_num (step_chars k (cv_num c) (cv_digits c)))
                (cv_digits (step_chars k (cv_num c) (cv_digits c))))
      as [d cs].
    cbn [fst snd] in *. split; [exact D'|].
    split; [cbn [List.length]; now rewrite L'|].
    intros i. rewrite B', B.
    destruct (Nat.ltb_spec i (S k)) as [L1|L1];
      destruct (Nat.ltb_spec i k) as [L2|L2];
      destruct (Nat.eqb_spec i k) as [E|E]; try (exfalso; lia).
    + reflexivity.
    + subst i. now rewrite Nat.sub_diag.
    + replace (i - k)%nat with (S (i - S k)) by lia. reflexivity.
Qed.

(** What the conversion returns and leaves in the buffer. *)
Lemma usint2decascii_text (num : Z) (buffer : nat -> Z) :
  fst (usint2decascii num buffer) = fst (text num)
  /\ List.length (snd (text num)) = 5%nat
  /\ forall i, snd (usint2decascii num buffer) i
               = nth i (snd (text num)) (buffer i).
Proof.
  destruct (fold_text 5 0
              (mkConv num (u8 (USINT2DECASCII_MAX_DIGITS - 1)) buffer))
    as (D & L & B).
  cbn zeta in D, L, B. cbn [cv_num cv_digits cv_buffer] in D, L, B.
  unfold usint2decascii, text. cbn [fst snd]. repeat split; try assumption.
  intros i. rewrite B. now rewrite Nat.sub_0_r.
Qed.

Lemma step_by_division (pos : nat) (num digits : Z) :
  (pos < 5)%nat -> 0 <= num < 65536 ->
  step_chars pos num digits = digit_step pos num digits
  /\ 0 <= cv_num (digit_step pos num digits) < 65536.
Proof.
  intros Hp Hn. pose proof (powers_positive pos Hp) as P.
  unfold step_chars, digit_step, usint2decascii_step. cbn [cv_num].
  rewrite sub_loop_exits by (assumption || lia). rewrite Z.add_0_l.
  split; [reflexivity|].
  unfold place_digit. cbn [cv_digits cv_buffer].
  destruct (if digits =? USINT2DECASCII_MAX_DIGITS - 1
            then if num / nth pos powers 0 =? 0
                 then if Z.of_nat pos <? USINT2DECASCII_MAX_DIGITS - 1
                      then (-16, digits)
                      else (num / nth pos powers 0, digits)
                 else (num / nth pos powers 0, Z.of_nat pos)
            else (num / nth pos powers 0, digits)) as [dg ds].
  cbn [cv_num].
  pose proof (Z.mod_pos_bound num (nth pos powers 0) P).
  assert (num mod nth pos powers 0 <= num) by (apply Z.mod_le; lia).
  lia.
Qed.

Lemma text_by_division (m : nat) :
  forall k num digits,
    (k + m <= 5)%nat -> 0 <= num < 65536 ->
    text_from (seq k m) num digits = text_div_from (seq k m) num digits.
Proof.
  induction m as [|m IH]; intros k num digits Hk Hn; [reflexivity|].
  cbn [seq text_from text_div_from].
  destruct (step_by_division k num digits) as (E & R); [lia|assumption|].
  rewrite E, IH by (assumption || lia). reflexivity.
Qed.

Lemma text_div_eq (num : Z) : 0 <= num < 65536 -> text num = text_div num.
Proof. intros H. unfold text, text_div. now apply text_by_division. Qed.

Lemma list_eqb_eq (l1 l2 : list Z) : list_eqb l1 l2 = true -> l1 = l2.
Proof. unfold list_eqb. now destruct (list_eq_dec Z.eq_dec l1 l2). Qed.

Lemma numeral_check_all (n : Z) :
  0 <= n < 65536 -> numeral_check n (text_div n) = true.
Proof.
  apply (forall_below (fun n => numeral_check n (text_div n))
                      (Z.to_nat 65536)).
  vm_compute. reflexivity.
Qed.

Lemma numeral_of_text (n d : Z) (cs : list Z) :
  0 <= n < 65536 -> text n = (d, cs) ->
  0 <= d <= 4
  /\ cells (fun i => nth i cs 0) (Z.to_nat d) 5 = chars_of_string (decimal n)
  /\ cells (fun i => nth i cs 0) (Z.to_nat d) numdec_size
     = chars_of_string (decimal n) ++ [0].
Proof.
  intros Hn Ht. pose proof (numeral_check_all n Hn) as Ok.
  rewrite <- text_div_eq, Ht in Ok by exact Hn.
  unfold numeral_check in Ok.
  apply andb_prop in Ok. destruct Ok as [Ok Ok3].
  apply andb_prop in Ok. destruct Ok as [Ok Ok2].
  apply andb_prop in Ok. destruct Ok as [Ok0 Ok1].
  apply list_eqb_eq in Ok2. apply list_eqb_eq in Ok3.
  split; [lia|]. split; assumption.
Qed.

(** ** Printing *)

Lemma runs_D_PRINT_CHAR (ch : Z) : runs (D_PRINT_CHAR ch) (wire [glyph ch]).
Proof.
  unfold D_PRINT_CHAR. eapply runs_eq; [runs_ops|].
  rewrite wire_one. reflexivity.
Qed.

Lemma runs_D_PRINT_STR (s : list Z) :
  runs (D_PRINT_STR s) (wire (map glyph (c_str s))).
Proof.
  induction s as [|ch s IH]; cbn [D_PRINT_STR c_str].
  - apply runs_ret.
  - destruct (ch =? 0); [apply runs_ret|].
    cbn [map]. change (wire (glyph ch :: map glyph (c_str s)))
      with (session_events (glyph ch) ++ wire (map glyph (c_str s))).
    rewrite <- wire_one. apply runs_seq; [apply runs_D_PRINT_CHAR | exact IH].
Qed.

(** [D_PRINT_INT] prints what the conversion left from the offset on, and
    that does not depend on what the scratch buffer held before. *)
Lemma D_PRINT_INT_eq (num : Z) (s : hw) :
  D_PRINT_INT num s
  = D_PRINT_STR (printed num)
      (with_buffer s
         (snd (usint2decascii num
                 (store (ssd1306_numdec_buffer s)
                        (Z.to_nat USINT2DECASCII_MAX_DIGITS) 0)))).
Proof.
  unfold D_PRINT_INT, bind, get_numdec_buffer, set_numdec_buffer.
  cbn [ssd1306_numdec_buffer].
  set (b0 := store (ssd1306_numdec_buffer s)
                   (Z.to_nat USINT2DECASCII_MAX_DIGITS) 0).
  destruct (usint2decascii_text num b0) as (D & L & B).
  destruct (usint2decascii num b0) as [d b'].
  cbn [fst snd] in *. cbn [ssd1306_numdec_buffer twsr_feed bus_steps PORTD log].
  unfold with_buffer. f_equal.
  unfold printed, cells. rewrite D. apply map_ext_in.
  intros i Hi. apply in_seq in Hi. rewrite B.
  destruct (Nat.lt_ge_cases i 5) as [Lt|Ge].
  - apply nth_indep. lia.
  - rewrite !nth_overflow by lia.
    change numdec_size with 6%nat in Hi.
    assert (i = 5%nat) by lia.
    subst i. reflexivity.
Qed.

Lemma runs_D_PRINT_INT (num : Z) :
  runs (D_PRINT_INT num) (wire (map glyph (c_str (printed num)))).
Proof.
  intros s. unfold exec. rewrite D_PRINT_INT_eq.
  apply (runs_D_PRINT_STR (printed num)
           (with_buffer s
              (snd (usint2decascii num
                      (store (ssd1306_numdec_buffer s)
                             (Z.to_nat USINT2DECASCII_MAX_DIGITS) 0))))).
Qed.

(** Every public operation puts whole sessions on the bus, the same ones
    whatever the hardware answers. *)
Lemma op_sessions (o : public_op) : exists l, runs (run_op o) (wire l).
Proof.
  destruct o; cbn [run_op].
  - eexists. apply runs_D_INIT.
  - eexists. rewrite wire_one. apply runs_D_SETPOS_raw.
  - eexists. apply runs_D_CLEAR.
  - eexists. apply runs_D_ON.
  - eexists. apply runs_D_OFF.
  - eexists. apply runs_D_CONTRAST.
  - eexists. apply runs_D_DRAW_HOR_raw.
  - eexists. apply runs_D_DRAW_VERT_raw.
  - eexists. apply runs_D_PRINT_CHAR.
  - eexists. apply runs_D_PRINT_STR.
  - eexists. apply runs_D_PRINT_INT.
Qed.

(** ** Pages of a vertical line *)

Lemma middle_pages (x last : Z) (m : nat) :
  forall q,
    flat_map (page_write x)
             (combine (zseq q (m + 1)) (repeat 0xFF m ++ [last]))
    = flat_map (fun p => page_write x (p, 0xFF)) (zseq q m)
      ++ page_write x (q + Z.of_nat m, last).
Proof.
  induction m as [|m IH]; intros q.
  - cbn [Nat.add zseq repeat app combine flat_map].
    now rewrite Z.add_0_r, app_nil_r.
  - cbn [Nat.add zseq repeat app combine flat_map]. rewrite IH.
    replace (q + 1 + Z.of_nat m) with (q + Z.of_nat (S m)) by lia.
    now rewrite <- app_assoc.
Qed.

Lemma first_last_middle_intro (first last : Z) (m : nat) :
  first_last_middle first last (first :: repeat 0xFF m ++ [last]).
Proof.
  unfold first_last_middle. cbn [List.length].
  rewrite length_app, repeat_length. cbn [List.length].
  split; [reflexivity|]. split.
  - replace (S (m + 1) - 1)%nat with (S m) by lia. cbn [nth].
    rewrite app_nth2 by (rewrite repeat_length; lia).
    now rewrite repeat_length, Nat.sub_diag.
  - intros i Hi. destruct i as [|i]; [lia|]. cbn [nth].
    rewrite app_nth1 by (rewrite repeat_length; lia).
    apply (repeat_spec m 0xFF). apply nth_In. rewrite repeat_length. lia.
Qed.

Lemma traffic_of_runs (m : Bus unit) (w : list event) (s : hw) :
  runs m w -> traffic (log (exec m s)) = traffic (log s) ++ w.
Proof. intros H. apply (H s). Qed.

(** * The claims *)

(** C1, amended.  For [y] in 0..63 and [len] in 1..64 with [y + len <= 64],
    when the line does not end on a page boundary ([(y + len) mod 8 <> 0]),
    [D_DRAW_VERT] makes exactly [ceil((y mod 8 + len) / 8)] page writes on
    consecutive pages from [y / 8]: a single one carries
    [(0xFF << (y mod 8)) & (0xFF >> ((y + len) mod 8))]; of several, the
    first carries the byte [0xFF << (y mod 8)], the last
    [0xFF >> ((y + len) mod 8)] and each one between [0xFF]. *)
Theorem D_DRAW_VERT_page_writes (x y len : Z) :
  byte x -> 0 <= y <= 63 -> 1 <= len <= 64 -> y + len <= 64 ->
  (y + len) mod 8 <> 0 ->
  exists bytes,
    draws_pages x y len bytes
    /\ Z.of_nat (List.length bytes) = ceil_div (y mod 8 + len) 8
    /\ (List.length bytes = 1%nat ->
        bytes = [Z.land (Z.shiftl 0xFF (y mod 8))
                        (Z.shiftr 0xFF ((y + len) mod 8))])
    /\ ((1 < List.length bytes)%nat ->
        first_last_middle (u8 (Z.shiftl 0xFF (y mod 8)))
                          (Z.shiftr 0xFF ((y + len) mod 8)) bytes).
Proof.
  intros Hx Hy Hl Hs Hb.
  assert (By : byte y) by (unfold byte; lia).
  assert (Bl : byte len) by (unfold byte; lia).
  destruct (Z.eq_dec ((y + len) / 8) (y / 8)) as [E|N].
  - exists [Z.land (Z.shiftl 0xFF (y mod 8)) (Z.shiftr 0xFF ((y + len) mod 8))].
    split; [|split; [|split]].
    + intros s. rewrite (traffic_of_runs _ _ s (runs_D_DRAW_VERT_raw x y len)).
      rewrite vert_sessions_single by assumption.
      cbn [List.length zseq combine flat_map]. now rewrite app_nil_r.
    + cbn [List.length]. rewrite (proj2 (vert_count y len ltac:(lia) ltac:(lia)) Hb).
      lia.
    + reflexivity.
    + cbn [List.length]. lia.
  - assert (Lt : y / 8 < (y + len) / 8)
      by (pose proof (proj1 (vert_count y len ltac:(lia) ltac:(lia))); lia).
    set (m := Z.to_nat ((y + len) / 8 - (y / 8 + 1))).
    exists (u8 (Z.shiftl 0xFF (y mod 8))
            :: repeat 0xFF m ++ [Z.shiftr 0xFF ((y + len) mod 8)]).
    assert (Len : List.length
                    (u8 (Z.shiftl 0xFF (y mod 8))
                     :: repeat 0xFF m ++ [Z.shiftr 0xFF ((y + len) mod 8)])
                  = S (m + 1)).
    { cbn [List.length]. rewrite length_app, repeat_length. reflexivity. }
    rewrite Len. split; [|split; [|split]].
    + intros s. rewrite (traffic_of_runs _ _ s (runs_D_DRAW_VERT_raw x y len)).
      rewrite vert_sessions_multi by assumption. fold m.
      rewrite Len. cbn [zseq combine flat_map]. rewrite middle_pages.
      replace (y / 8 + 1 + Z.of_nat m) with ((y + len) / 8) by lia.
      reflexivity.
    + rewrite (proj2 (vert_count y len ltac:(lia) ltac:(lia)) Hb). lia.
    + lia.
    + intros _. apply first_last_middle_intro.
Qed.

(** C2, at the input where the code departs from it.  A line of 8 pixels
    from [y = 0] stays within page 0 ([y mod 8 + len <= 8]), yet
    [D_DRAW_VERT 0 0 8] writes two data bytes: [0xFF] on page 0 and [0xFF]
    on page 1. *)
Theorem D_DRAW_VERT_full_page_writes_twice (s : hw) :
  traffic (log (exec (D_DRAW_VERT 0 0 8) s))
  = traffic (log s)
    ++ wire (page_write 0 (0, 0xFF) ++ page_write 0 (1, 0xFF)).
Proof.
  rewrite (traffic_of_runs _ _ s (runs_D_DRAW_VERT_raw 0 0 8)).
  reflexivity.
Qed.

(** C3.  [usint2decascii 0] returns offset 4 and leaves the numeral ["0"]
    from there; [usint2decascii 12345] returns offset 0 and leaves
    ["12345"]; for every [n] in 0..65535 the chars of the 5-position buffer
    from the returned offset on are the decimal numeral of [n]; and
    [D_PRINT_INT n] prints exactly that numeral. *)
Theorem usint2decascii_decimal :
  (forall buffer,
      fst (usint2decascii 0 buffer) = 4
      /\ cells (snd (usint2decascii 0 buffer)) 4 5 = chars_of_string "0"%string)
  /\ (forall buffer,
      fst (usint2decascii 12345 buffer) = 0
      /\ cells (snd (usint2decascii 12345 buffer)) 0 5
         = chars_of_string "12345"%string)
  /\ (forall n buffer,
      0 <= n <= 65535 ->
      0 <= fst (usint2decascii n buffer) <= 4
      /\ cells (snd (usint2decascii n buffer))
               (Z.to_nat (fst (usint2decascii n buffer))) 5
         = chars_of_string (decimal n))
  /\ (forall n s,
      0 <= n <= 65535 ->
      D_PRINT_INT n s
      = D_PRINT_STR (chars_of_string (decimal n) ++ [0])
          (with_buffer s
             (snd (usint2decascii n
                     (store (ssd1306_numdec_buffer s)
                            (Z.to_nat USINT2DECASCII_MAX_DIGITS) 0))))).
Proof.
  assert (G : forall n buffer,
             0 <= n <= 65535 ->
             0 <= fst (usint2decascii n buffer) <= 4
             /\ cells (snd (usint2decascii n buffer))
                      (Z.to_nat (fst (usint2decascii n buffer))) 5
                = chars_of_string (decimal n)
             /\ printed n = chars_of_string (decimal n) ++ [0]).
  { intros n buffer Hn.
    destruct (usint2decascii_text n buffer) as (D & L & B).
    destruct (numeral_of_text n (fst (text n)) (snd (text n)) ltac:(lia)
                (surjective_pairing _)) as (R & C & P).
    rewrite D. split; [exact R|]. split; [|exact P].
    rewrite <- C. unfold cells. apply map_ext_in.
    intros i Hi. apply in_seq in Hi. rewrite B. apply nth_indep. lia. }
  split; [|split; [|split]].
  - intros buffer. destruct (G 0 buffer ltac:(lia)) as (R & C & _).
    destruct (usint2decascii_text 0 buffer) as (D & _).
    rewrite text_div_eq in D by lia. rewrite D in C.
    split; [exact D|exact C].
  - intros buffer. destruct (G 12345 buffer ltac:(lia)) as (R & C & _).
    destruct (usint2decascii_text 12345 buffer) as (D & _).
    rewrite text_div_eq in D by lia. rewrite D in C.
    split; [exact D|exact C].
  - intros n buffer Hn. destruct (G n buffer Hn) as (R & C & _). now split.
  - intros n s Hn. rewrite D_PRINT_INT_eq.
    destruct (G n (fun _ => 0) Hn) as (_ & _ & P). now rewrite P.
Qed.

(** C4.  Whatever the hardware answers, a public operation started with the
    bus idle opens no session inside another, closes each session it opened
    before it opens the next, sends no byte outside a session, and leaves
    the bus idle. *)
Theorem sessions_are_bracketed (o : public_op) (s : hw) :
  line_after Idle (log s) = Some Idle ->
  line_after Idle (log (exec (run_op o) s)) = Some Idle.
Proof.
  intros H. destruct (op_sessions o) as [l R].
  rewrite <- line_after_traffic, (traffic_of_runs _ _ s R).
  rewrite line_after_app, line_after_traffic, H.
  apply line_after_wire.
Qed.

(** C5.  When the status read after a bus action (start condition,
    address phase or byte transmission, each a [twi_checked]) is not the
    expected one, [D_ERROR] runs: ten writes to PORTD and nothing on the
    bus; the action still returns [tt] to its caller.  And no operation is
    cut short: each public operation returns [tt] and puts on the bus the
    same whole sessions whatever the statuses are, [D_ERROR] blinking once
    for each action of them that is not acknowledged. *)
Theorem nack_signals_error_and_operation_continues :
  (forall e expect s,
      acked (twsr_feed s) (bus_steps s) expect = false ->
      twi_checked e expect s
      = (tt, exec D_ERROR (exec (twi_action e) s)))
  /\ (forall s,
      traffic (log (exec D_ERROR s)) = traffic (log s)
      /\ pin_writes (log (exec D_ERROR s)) = (pin_writes (log s) + 10)%nat)
  /\ (forall o, exists l, forall s,
      fst (run_op o s) = tt
      /\ traffic (log (exec (run_op o) s)) = traffic (log s) ++ wire l
      /\ pin_writes (log (exec (run_op o) s))
         = (pin_writes (log s)
            + 10 * nacks (twsr_feed s) (bus_steps s) (wire l))%nat).
Proof.
  split; [|split].
  - intros e expect s H. unfold twi_checked, bind, check_status, acked in *.
    cbn [twi_action]. rewrite H. unfold exec. cbn [snd].
    now destruct (D_ERROR _) as [[] s'].
  - intros s. destruct (D_ERROR_effect s) as (T & _ & _ & P). now split.
  - intros o. destruct (op_sessions o) as [l R]. exists l. intros s.
    destruct (R s) as (T & _ & _ & P).
    split; [now destruct (fst (run_op o s))|]. now split.
Qed.

(** C6.  For all bytes [x], [y], [len], [D_DRAW_HOR x y len] sets the
    position to column [x] of page [y / 8], then writes exactly [len] data
    bytes, each [1 << (y mod 8)], in one data session. *)
Theorem D_DRAW_HOR_traffic (x y len : Z) (s : hw) :
  byte x -> byte y -> byte len ->
  traffic (log (exec (D_DRAW_HOR x y len) s))
  = traffic (log s)
    ++ wire [position x (y / 8);
             data (repeat (Z.shiftl 1 (y mod 8)) (Z.to_nat len))].
Proof.
  intros Hx Hy _. apply traffic_of_runs. now apply runs_D_DRAW_HOR.
Qed.

(** C7.  [D_CLEAR] sets the position to (0, 0), then writes exactly 1024
    zero bytes in one data session. *)
Theorem D_CLEAR_traffic (s : hw) :
  traffic (log (exec D_CLEAR s))
  = traffic (log s) ++ wire [position 0 0; data (repeat 0 (128 * 8))].
Proof. apply traffic_of_runs. apply runs_D_CLEAR. Qed.

(** C8.  [D_INIT] opens one command session, sends the bytes of
    [init_sequence] in order, then the column-range command with bounds
    0x00 and 0x7F, then the page-range command with bounds 0x00 and 0x07,
    and closes the session. *)
Theorem D_INIT_traffic (s : hw) :
  traffic (log (exec D_INIT s))
  = traffic (log s)
    ++ wire [command (init_sequence
                      ++ [u8 OLED_CMD_SET_COLUMN_RANGE; 0x00; 0x7F]
                      ++ [u8 OLED_CMD_SET_PAGE_RANGE; 0x00; 0x07])].
Proof. apply traffic_of_runs. apply runs_D_INIT. Qed.

(** C9.  [D_PRINT_STR] on the empty string, a pointer to a NUL, does
    nothing: the state it returns is the one it was given, log included. *)
Theorem D_PRINT_STR_empty (rest : list Z) (s : hw) :
  D_PRINT_STR (0 :: rest) s = (tt, s).
Proof. reflexivity. Qed.

(** C10.  For all bytes [x], [y], [D_DRAW_VERT x y 0] writes exactly one
    data byte, [(0xFF << (y mod 8)) & (0xFF >> (y mod 8))], on page
    [y / 8]; when [y mod 8 = 0] that byte is [0xFF]. *)
Theorem D_DRAW_VERT_zero_length (x y : Z) :
  byte x -> byte y ->
  (forall s,
      traffic (log (exec (D_DRAW_VERT x y 0) s))
      = traffic (log s)
        ++ wire (page_write x (y / 8,
                               Z.land (Z.shiftl 0xFF (y mod 8))
                                      (Z.shiftr 0xFF (y mod 8)))))
  /\ (y mod 8 = 0 ->
      Z.land (Z.shiftl 0xFF (y mod 8)) (Z.shiftr 0xFF (y mod 8)) = 0xFF).
Proof.
  intros Hx Hy. split.
  - intros s. rewrite (traffic_of_runs _ _ s (runs_D_DRAW_VERT_raw x y 0)).
    rewrite vert_sessions_single; try assumption.
    + now rewrite Z.add_0_r.
    + unfold byte. lia.
    + now rewrite Z.add_0_r.
  - intros ->. reflexivity.
Qed.

(** * Further properties of the driver *)

(** ** The error handler *)

Lemma toggle_pin (p pin : Z) :
  byte p -> 0 <= pin < 8 ->
  u8 (Z.lxor p (Z.shiftl 1 pin)) = Z.lxor p (Z.shiftl 1 pin)
  /\ byte (Z.lxor p (Z.shiftl 1 pin))
  /\ Z.lxor (Z.lxor p (Z.shiftl 1 pin)) (Z.shiftl 1 pin) = p.
Proof.
  intros Hp Hpin.
  assert (B : byte (Z.lxor p (Z.shiftl 1 pin))).
  { assert (P : pin = 0 \/ pin = 1 \/ pin = 2 \/ pin = 3 \/ pin = 4
                \/ pin = 5 \/ pin = 6 \/ pin = 7) by lia.
    assert (G : forall k, (0 <=? Z.lxor p (Z.shiftl 1 k)) &&
                          (Z.lxor p (Z.shiftl 1 k) <? 256) = true ->
                          byte (Z.lxor p (Z.shiftl 1 k))).
    { intros k H. apply andb_prop in H. unfold byte. lia. }
    repeat (destruct P as [->|P]); try subst pin; apply G;
      apply (forall_below
               (fun p => (0 <=? Z.lxor p _) && (Z.lxor p _ <? 256)) 256);
      (vm_compute; reflexivity) || exact Hp. }
  split; [now apply u8_small|]. split; [exact B|].
  rewrite Z.lxor_assoc, Z.lxor_nilpotent. apply Z.lxor_0_r.
Qed.

Lemma blink_pairs (k : nat) :
  forall i s,
    byte (PORTD s) -> 0 <= ERROR_PIN < 8 ->
    exec (for_from (2 * k) i (fun _ =>
            write_PORTD (fun p => Z.lxor p (Z.shiftl 1 ERROR_PIN)) ;;
            _delay_ms 300)) s
    = mkHw (twsr_feed s) (bus_steps s) (PORTD s) (ssd1306_numdec_buffer s)
           (log s
            ++ concat (repeat [EvPortD (Z.lxor (PORTD s)
                                               (Z.shiftl 1 ERROR_PIN));
                               EvDelay 300;
                               EvPortD (PORTD s);
                               EvDelay 300] k)).
Proof.
  induction k as [|k IH]; intros i s Hp Hpin.
  - cbn [Nat.mul for_from repeat concat]. rewrite app_nil_r.
    now destruct s.
  - replace (2 * S k)%nat with (S (S (2 * k))) by lia.
    cbn [for_from]. rewrite !exec_bind.
    destruct (toggle_pin (PORTD s) ERROR_PIN Hp Hpin) as (U & B & T).
    set (s2 := exec (_delay_ms 300)
                 (exec (write_PORTD
                          (fun p => Z.lxor p (Z.shiftl 1 ERROR_PIN)))
                    (exec (_delay_ms 300)
                       (exec (write_PORTD
                                (fun p => Z.lxor p (Z.shiftl 1 ERROR_PIN)))
                             s)))).
    assert (E : s2 = mkHw (twsr_feed s) (bus_steps s) (PORTD s)
                          (ssd1306_numdec_buffer s)
                          (log s
                           ++ [EvPortD (Z.lxor (PORTD s)
                                               (Z.shiftl 1 ERROR_PIN));
                               EvDelay 300; EvPortD (PORTD s); EvDelay 300])).
    { unfold s2, exec, _delay_ms, emit, write_PORTD.
      cbn [snd PORTD twsr_feed bus_steps ssd1306_numdec_buffer log].
      rewrite U, T, (u8_small (PORTD s)) by exact Hp.
      rewrite <- !app_assoc. reflexivity. }
    rewrite E, IH by (cbn [PORTD]; assumption).
    cbn [PORTD twsr_feed bus_steps ssd1306_numdec_buffer log repeat concat].
    rewrite <- !app_assoc. reflexivity.
Qed.

(** X1.  With PORTD a byte and the error pin one of its eight bits,
    [D_ERROR] flips that bit ten times, 300 ms apart, so that PORTD ends
    as it began; it touches nothing else of the hardware and puts nothing
    on the bus. *)
Theorem D_ERROR_blinks_and_restores (s : hw) :
  byte (PORTD s) -> 0 <= ERROR_PIN < 8 ->
  exec D_ERROR s
  = mkHw (twsr_feed s) (bus_steps s) (PORTD s) (ssd1306_numdec_buffer s)
         (log s
          ++ concat (repeat [EvPortD (Z.lxor (PORTD s) (Z.shiftl 1 ERROR_PIN));
                             EvDelay 300;
                             EvPortD (PORTD s);
                             EvDelay 300] 5)).
Proof.
  intros Hp Hpin.
  exact (blink_pairs 5 0 s Hp Hpin).
Qed.

(** ** Addressing *)

(** X2.  For a column [x] in 0..255 and a page in 0..7, [D_SETPOS] sends one
    command session of three bytes: the page command in 0xB0..0xB7, the
    high-nibble command in 0x10..0x1F and the low-nibble command in
    0x00..0x0F; the page and the column are read back from them. *)
Theorem D_SETPOS_roundtrip (x page : Z) :
  byte x -> 0 <= page <= 7 ->
  exists b0 b1 b2,
    (forall s,
        traffic (log (exec (D_SETPOS x page) s))
        = traffic (log s) ++ wire [command [b0; b1; b2]])
    /\ 0xB0 <= b0 <= 0xB7 /\ 0x10 <= b1 <= 0x1F /\ 0x00 <= b2 <= 0x0F
    /\ page = b0 - 0xB0
    /\ x = (b1 - 0x10) * 16 + b2.
Proof.
  intros Hx Hp. exists (0xB0 + page), (0x10 + x / 16), (x mod 16).
  split.
  - intros s. rewrite wire_one. apply traffic_of_runs.
    apply runs_D_SETPOS; [assumption | lia].
  - unfold byte in Hx. clear progmem_past_font.
    Z.to_euclidean_division_equations. lia.
Qed.

(** ** Power and contrast *)

(** X3.  [D_ON], [D_OFF] and [D_CONTRAST] each make one command session:
    0xAF, 0xAE, and 0x81 followed by the contrast byte unchanged. *)
Theorem power_and_contrast_traffic (contrast : Z) (s : hw) :
  byte contrast ->
  traffic (log (exec D_ON s)) = traffic (log s) ++ wire [command [0xAF]]
  /\ traffic (log (exec D_OFF s)) = traffic (log s) ++ wire [command [0xAE]]
  /\ traffic (log (exec (D_CONTRAST contrast) s))
     = traffic (log s) ++ wire [command [0x81; contrast]].
Proof.
  intros Hc. split; [|split].
  - apply traffic_of_runs, runs_D_ON.
  - apply traffic_of_runs, runs_D_OFF.
  - rewrite <- (u8_small contrast Hc) at 2.
    apply traffic_of_runs, runs_D_CONTRAST.
Qed.

(** ** Text *)

Lemma glyph_in_font (ch : Z) :
  32 <= ch <= 122 ->
  map (fun i => u8 (pgm_read_font (u8 (ch - 32) * 5 + i))) (zseq 0 5)
  = font_columns ch.
Proof.
  intros H. apply list_eqb_eq.
  replace ch with ((ch - 32) + 32) by ring.
  apply (forall_below
           (fun c => list_eqb
                       (map (fun i =>
                               u8 (pgm_read_font (u8 (c + 32 - 32) * 5 + i)))
                            (zseq 0 5))
                       (font_columns (c + 32)))
           91); [vm_compute; reflexivity | lia].
Qed.

Lemma glyph_past_font (ch i : Z) :
  byte ch -> ch < 32 \/ 122 < ch -> 0 <= i ->
  pgm_read_font (u8 (ch - 32) * 5 + i)
  = progmem_past_font (u8 (ch - 32) * 5 + i).
Proof.
  intros Hb H Hi. unfold pgm_read_font. apply nth_overflow.
  change (List.length D_FONT6x8) with 455%nat.
  assert (91 <= u8 (ch - 32)).
  { unfold u8, byte in *. destruct H as [H|H].
    - replace (ch - 32) with (ch + 224 + (-1) * 256) by ring.
      rewrite Z.mod_add, Z.mod_small by lia. lia.
    - rewrite Z.mod_small by lia. lia. }
  lia.
Qed.

(** X4.  [D_PRINT_CHAR] makes one data session of six bytes, the first a
    blank column.  For a char from 32 (space) to 122 (z) the other five are
    its columns in the font table; for any other char they are read from
    program memory past the end of the table. *)
Theorem D_PRINT_CHAR_traffic (ch : Z) :
  byte ch ->
  exists cols,
    (forall s,
        traffic (log (exec (D_PRINT_CHAR ch) s))
        = traffic (log s) ++ wire [data (0x00 :: cols)])
    /\ List.length cols = 5%nat
    /\ (32 <= ch <= 122 -> cols = font_columns ch)
    /\ (ch < 32 \/ 122 < ch ->
        cols = map (fun i => u8 (progmem_past_font (u8 (ch - 32) * 5 + i)))
                   [0; 1; 2; 3; 4]).
Proof.
  intros Hb.
  exists (map (fun i => u8 (pgm_read_font (u8 (ch - 32) * 5 + i))) (zseq 0 5)).
  split; [|split; [|split]].
  - intros s. apply traffic_of_runs. apply runs_D_PRINT_CHAR.
  - reflexivity.
  - apply glyph_in_font.
  - intros H. cbn [zseq map Z.add Pos.add Pos.succ].
    rewrite !(glyph_past_font ch) by (assumption || lia). reflexivity.
Qed.

Lemma c_str_terminated (str rest : list Z) :
  Forall (fun c => c <> 0) str -> c_str (str ++ 0 :: rest) = str.
Proof.
  induction 1 as [|c str Hc _ IH]; [reflexivity|].
  cbn [app c_str]. destruct (Z.eqb_spec c 0) as [E|_]; [contradiction|].
  now rewrite IH.
Qed.

(** X5.  [D_PRINT_STR] prints the chars before the first NUL, one data
    session of six bytes each, in order, and reads nothing after the NUL. *)
Theorem D_PRINT_STR_traffic (str rest : list Z) (s : hw) :
  Forall (fun c => c <> 0) str ->
  traffic (log (exec (D_PRINT_STR (str ++ 0 :: rest)) s))
  = traffic (log s) ++ wire (map glyph str).
Proof.
  intros H. rewrite <- (c_str_terminated str rest H) at 2.
  apply traffic_of_runs. apply runs_D_PRINT_STR.
Qed.

(** ** The conversion *)

(** X6.  Whatever [num] is, [usint2decascii] writes the first five cells of
    the buffer only: every later cell keeps its content, so the text is not
    terminated and what follows it in memory is not touched. *)
Theorem usint2decascii_writes_five_cells (num : Z) (buffer : nat -> Z) (i : nat) :
  (5 <= i)%nat ->
  snd (usint2decascii num buffer) i = buffer i.
Proof.
  intros Hi. destruct (usint2decascii_text num buffer) as (_ & L & B).
  rewrite B. apply nth_overflow. lia.
Qed.

Lemma padded_check_all (n : Z) :
  0 <= n < 65536 -> padded_check n (text_div n) = true.
Proof.
  apply (forall_below (fun n => padded_check n (text_div n))
                      (Z.to_nat 65536)).
  vm_compute. reflexivity.
Qed.

Lemma padded_text (n : Z) :
  0 <= n < 65536 ->
  snd (text n)
  = repeat 32 (Z.to_nat (fst (text n))) ++ chars_of_string (decimal n)
  /\ Forall (fun c => c <> 0) (chars_of_string (decimal n)).
Proof.
  intros Hn. pose proof (padded_check_all n Hn) as Ok.
  rewrite <- text_div_eq in Ok by exact Hn.
  rewrite (surjective_pairing (text n)) in Ok. unfold padded_check in Ok.
  apply andb_prop in Ok. destruct Ok as [Ok1 Ok2].
  split; [now apply list_eqb_eq|].
  apply Forall_forall. intros c Hc.
  rewrite forallb_forall in Ok2. specialize (Ok2 c Hc).
  destruct (Z.eqb_spec c 0); [discriminate|assumption].
Qed.

Lemma cells_of_five (cs : list Z) (buffer b' : nat -> Z) :
  List.length cs = 5%nat ->
  (forall i, b' i = nth i cs (buffer i)) ->
  cells b' 0 5 = cs.
Proof.
  intros L B. unfold cells. cbn [Nat.sub seq map]. rewrite !B.
  do 5 (destruct cs as [|? cs]; [discriminate L|]).
  destruct cs; [reflexivity|discriminate L].
Qed.

(** X7.  For [n] in 0..65535 the five cells [usint2decascii] writes are
    the decimal numeral of [n] right-aligned after spaces, and the offset
    it returns is the number of those spaces: five less the number of
    digits. *)
Theorem usint2decascii_right_aligned (n : Z) (buffer : nat -> Z) :
  0 <= n <= 65535 ->
  cells (snd (usint2decascii n buffer)) 0 5
  = repeat 32 (Z.to_nat (fst (usint2decascii n buffer)))
    ++ chars_of_string (decimal n)
  /\ fst (usint2decascii n buffer)
     = 5 - Z.of_nat (List.length (chars_of_string (decimal n))).
Proof.
  intros Hn. destruct (usint2decascii_text n buffer) as (D & L & B).
  destruct (padded_text n ltac:(lia)) as (P & _).
  destruct (numeral_of_text n (fst (text n)) (snd (text n)) ltac:(lia)
              (surjective_pairing _)) as (R & _).
  rewrite D. rewrite (cells_of_five _ buffer _ L B). split; [exact P|].
  rewrite P, length_app, repeat_length in L. lia.
Qed.

(** X8.  For [n] in 0..65535, whatever the scratch buffer held before,
    [D_PRINT_INT n] prints the decimal numeral of [n] and nothing else: one
    glyph session for each digit, in order. *)
Theorem D_PRINT_INT_traffic (n : Z) (s : hw) :
  0 <= n <= 65535 ->
  traffic (log (exec (D_PRINT_INT n) s))
  = traffic (log s) ++ wire (map glyph (chars_of_string (decimal n))).
Proof.
  intros Hn.
  destruct (numeral_of_text n (fst (text n)) (snd (text n)) ltac:(lia)
              (surjective_pairing _)) as (_ & _ & P).
  destruct (padded_text n ltac:(lia)) as (_ & NZ).
  rewrite (traffic_of_runs _ _ s (runs_D_PRINT_INT n)).
  unfold printed. rewrite P.
  now rewrite (c_str_terminated _ [] NZ).
Qed.

(** ** The vertical line on every input *)

Lemma vert_shape (x y len : Z) :
  byte x -> byte y -> byte len ->
  ((y + len) / 8 = y / 8 ->
   draws_pages x y len [Z.land (Z.shiftl 0xFF (y mod 8))
                               (Z.shiftr 0xFF ((y + len) mod 8))])
  /\ (y / 8 < (y + len) / 8 ->
      draws_pages x y len
        (u8 (Z.shiftl 0xFF (y mod 8))
         :: repeat 0xFF (Z.to_nat ((y + len) / 8 - (y / 8 + 1)))
         ++ [Z.shiftr 0xFF ((y + len) mod 8)])).
Proof.
  intros Hx Hy Hl. split; intros Hp s.
  - rewrite (traffic_of_runs _ _ s (runs_D_DRAW_VERT_raw x y len)).
    rewrite vert_sessions_single by assumption.
    cbn [List.length zseq combine flat_map]. now rewrite app_nil_r.
  - rewrite (traffic_of_runs _ _ s (runs_D_DRAW_VERT_raw x y len)).
    rewrite vert_sessions_multi by assumption.
    set (m := Z.to_nat ((y + len) / 8 - (y / 8 + 1))).
    cbn [List.length]. rewrite length_app, repeat_length.
    cbn [List.length zseq combine flat_map]. rewrite middle_pages.
    replace (y / 8 + 1 + Z.of_nat m) with ((y + len) / 8) by lia.
    reflexivity.
Qed.

(** X9.  For all bytes [x], [y], [len], [D_DRAW_VERT] writes one byte on
    each page from that of row [y] to that of row [y + len], both included:
    [(y + len) / 8 - y / 8 + 1] page writes.  A single write carries the
    two masks combined; of several, the first carries the start mask, the
    last the end mask and the others [0xFF]. *)
Theorem D_DRAW_VERT_every_input (x y len : Z) :
  byte x -> byte y -> byte len ->
  exists bytes,
    draws_pages x y len bytes
    /\ Z.of_nat (List.length bytes) = (y + len) / 8 - y / 8 + 1
    /\ ((y + len) / 8 = y / 8 ->
        bytes = [Z.land (Z.shiftl 0xFF (y mod 8))
                        (Z.shiftr 0xFF ((y + len) mod 8))])
    /\ (y / 8 < (y + len) / 8 ->
        first_last_middle (u8 (Z.shiftl 0xFF (y mod 8)))
                          (Z.shiftr 0xFF ((y + len) mod 8)) bytes).
Proof.
  intros Hx Hy Hl. destruct (vert_shape x y len Hx Hy Hl) as (S1 & S2).
  destruct (vert_pages y len Hy Hl) as (_ & P & _).
  destruct (Z.eq_dec ((y + len) / 8) (y / 8)) as [E|N].
  - eexists. split; [exact (S1 E)|]. cbn [List.length].
    split; [lia|]. split; [reflexivity|lia].
  - assert (Lt : y / 8 < (y + len) / 8) by lia.
    eexists. split; [exact (S2 Lt)|]. cbn [List.length].
    rewrite length_app, repeat_length. cbn [List.length].
    split; [lia|]. split; [lia|]. intros _. apply first_last_middle_intro.
Qed.

Lemma page_after_line (y len : Z) :
  0 <= y -> 1 <= len -> (y + len) mod 8 = 0 ->
  (y + len - 1) / 8 = (y + len) / 8 - 1 /\ y / 8 < (y + len) / 8.
Proof.
  intros Hy Hl Hm. clear progmem_past_font.
  Z.to_euclidean_division_equations. lia.
Qed.

(** X10.  When a line of at least one pixel ends on a page boundary
    ([(y + len) mod 8 = 0]), the last page write of [D_DRAW_VERT] puts
    [0xFF] on page [(y + len) / 8], the page after the one that holds the
    last pixel of the line, row [y + len - 1]. *)
Theorem D_DRAW_VERT_writes_past_boundary (x y len : Z) :
  byte x -> byte y -> byte len -> 1 <= len -> (y + len) mod 8 = 0 ->
  exists bytes,
    draws_pages x y len (bytes ++ [0xFF])
    /\ y / 8 + Z.of_nat (List.length bytes) = (y + len) / 8
    /\ (y + len - 1) / 8 = (y + len) / 8 - 1.
Proof.
  intros Hx Hy Hl L1 Hm.
  destruct (page_after_line y len ltac:(unfold byte in Hy; lia) L1 Hm)
    as (Pg & Lt).
  destruct (vert_shape x y len Hx Hy Hl) as (_ & S2).
  exists (u8 (Z.shiftl 0xFF (y mod 8))
          :: repeat 0xFF (Z.to_nat ((y + len) / 8 - (y / 8 + 1)))).
  split; [|split; [|exact Pg]].
  - specialize (S2 Lt). rewrite Hm in S2. exact S2.
  - cbn [List.length]. rewrite repeat_length. lia.
Qed.

(** ** Interrupts around the bus *)

Lemma irq_moves_ret (a : bool) : irq_moves a a (ret tt).
Proof. intros s i H. exact H. Qed.

Lemma irq_moves_seq (a b c : bool) (m k : Bus unit) :
  irq_moves a b m -> irq_moves b c k -> irq_moves a c (m ;; k).
Proof.
  intros Hm Hk s i H. rewrite exec_bind. apply Hk. now apply Hm.
Qed.

Lemma irq_moves_emit (a b : bool) (e : event) :
  irq_step (Some a) e = Some b -> irq_moves a b (emit e).
Proof.
  intros He s i H. unfold exec, emit, irq_after in *. cbn [snd log].
  now rewrite fold_left_app, H.
Qed.

Lemma irq_moves_for_from (a : bool) (body : Z -> Bus unit) :
  (forall i, irq_moves a a (body i)) ->
  forall n i, irq_moves a a (for_from n i body).
Proof.
  intros Hb. induction n as [|n IH]; intros i; cbn [for_from].
  - apply irq_moves_ret.
  - eapply irq_moves_seq; [apply Hb | apply IH].
Qed.

Lemma irq_moves_D_ERROR : irq_moves false false D_ERROR.
Proof.
  unfold D_ERROR, for_range. apply irq_moves_for_from. intros _.
  apply (irq_moves_seq false false false); [|now apply irq_moves_emit].
  intros s i H. unfold exec, write_PORTD, irq_after in *. cbn [snd log].
  now rewrite fold_left_app, H.
Qed.

Lemma irq_moves_checked (e : event) (expect : Z) :
  irq_step (Some false) e = Some false ->
  irq_moves false false (twi_checked e expect).
Proof.
  intros He s i H. unfold twi_checked. rewrite exec_bind.
  assert (A : irq_after i (log (exec (twi_action e) s)) = Some false).
  { unfold exec, twi_action, irq_after in *. cbn [snd log].
    now rewrite fold_left_app, H. }
  unfold check_status. cbn [twi_action fst].
  destruct (_ =? expect); [exact A | now apply irq_moves_D_ERROR].
Qed.

Lemma irq_moves_D_TX (DATA : Z) : irq_moves false false (D_TX DATA).
Proof. now apply irq_moves_checked. Qed.

Lemma irq_moves_D_START (a : bool) (control : Z) :
  irq_moves a false (D_START control).
Proof.
  unfold D_START.
  apply (irq_moves_seq a false false);
    [apply irq_moves_emit; now destruct a|].
  apply (irq_moves_seq false false false); [now apply irq_moves_checked|].
  apply (irq_moves_seq false false false); [now apply irq_moves_checked|].
  apply irq_moves_D_TX.
Qed.

Lemma irq_moves_D_STOP : irq_moves false true D_STOP.
Proof.
  unfold D_STOP.
  apply (irq_moves_seq false false true); now apply irq_moves_emit.
Qed.

Lemma irq_moves_tx_loop (f : Z -> Z) (a b : Z) :
  irq_moves false false (for_range a b (fun i => D_TX (f i))).
Proof.
  unfold for_range. apply irq_moves_for_from. intros i. apply irq_moves_D_TX.
Qed.

Lemma irq_moves_delay (a : bool) (ms : Z) : irq_moves a a (_delay_ms ms).
Proof. apply irq_moves_emit. now destruct a. Qed.

(** Splits an operation into sessions and these into their calls. *)
Ltac irq_calls :=
  repeat first
    [ apply irq_moves_D_START | apply irq_moves_D_TX | apply irq_moves_D_STOP
    | apply irq_moves_tx_loop | apply irq_moves_delay
    | eapply irq_moves_seq ].

Lemma irq_moves_D_SETPOS (a : bool) (x y : Z) :
  irq_moves a true (D_SETPOS x y).
Proof. unfold D_SETPOS, D_START_CMD. irq_calls. Qed.

Lemma irq_moves_page_write (a : bool) (x p b : Z) :
  irq_moves a true (D_SETPOS x p ;; D_START_DAT ;; D_TX b ;; D_STOP).
Proof.
  eapply irq_moves_seq; [apply irq_moves_D_SETPOS|].
  unfold D_START_DAT. irq_calls.
Qed.

Lemma irq_moves_D_DRAW_VERT (a : bool) (x y len : Z) :
  irq_moves a true (D_DRAW_VERT x y len).
Proof.
  unfold D_DRAW_VERT. destruct (_ =? 0).
  - apply irq_moves_page_write.
  - eapply irq_moves_seq; [apply irq_moves_D_SETPOS|].
    eapply irq_moves_seq; [apply irq_moves_D_START|].
    eapply irq_moves_seq; [apply irq_moves_D_TX|].
    eapply irq_moves_seq; [apply irq_moves_D_STOP|].
    eapply irq_moves_seq; [|apply irq_moves_page_write].
    destruct (1 <? _); [|apply irq_moves_ret].
    unfold for_range. apply irq_moves_for_from. intros i.
    apply irq_moves_page_write.
Qed.

Lemma irq_moves_D_PRINT_CHAR (a : bool) (ch : Z) :
  irq_moves a true (D_PRINT_CHAR ch).
Proof. unfold D_PRINT_CHAR, D_START_DAT. irq_calls. Qed.

Lemma irq_moves_D_PRINT_STR (a : bool) (str : list Z) :
  irq_moves a (match c_str str with [] => a | _ => true end)
            (D_PRINT_STR str).
Proof.
  revert a. induction str as [|ch str IH]; intros a; cbn [D_PRINT_STR c_str].
  - apply irq_moves_ret.
  - destruct (ch =? 0); [apply irq_moves_ret|].
    eapply irq_moves_seq; [apply irq_moves_D_PRINT_CHAR|].
    specialize (IH true). now destruct (c_str str).
Qed.

Lemma c_str_printed (n : Z) :
  0 <= n < 65536 ->
  c_str (printed n) = chars_of_string (decimal n)
  /\ chars_of_string (decimal n) <> [].
Proof.
  intros Hn.
  destruct (numeral_of_text n (fst (text n)) (snd (text n)) Hn
              (surjective_pairing _)) as (R & _ & P).
  destruct (padded_text n Hn) as (Pad & NZ).
  destruct (usint2decascii_text n (fun _ => 0)) as (_ & L & _).
  unfold printed. rewrite P. split; [apply (c_str_terminated _ [] NZ)|].
  intros E. rewrite Pad, E, app_nil_r, repeat_length in L. lia.
Qed.

(** X11.  Every bus action and every blink of the error handler that a
    public operation makes happens with interrupts disabled, and every
    operation returns with interrupts enabled, even when it was called with
    them disabled; only printing an empty string, which does nothing,
    leaves the flag as it was. *)
Theorem operations_mask_and_enable_interrupts
    (o : public_op) (s : hw) (i a : bool) :
  irq_after i (log s) = Some a ->
  irq_after i (log (exec (run_op o) s))
  = Some (match o with
          | OpPrintStr str => match c_str str with [] => a | _ => true end
          | _ => true
          end).
Proof.
  intros H. revert s i H.
  change (irq_moves a
            (match o with
             | OpPrintStr str => match c_str str with [] => a | _ => true end
             | _ => true
             end) (run_op o)).
  destruct o; cbn [run_op].
  - unfold D_INIT, D_START_CMD. irq_calls.
  - apply irq_moves_D_SETPOS.
  - unfold D_CLEAR, D_START_DAT.
    eapply irq_moves_seq; [apply irq_moves_D_SETPOS|]. irq_calls.
  - unfold D_ON, D_START_CMD. irq_calls.
  - unfold D_OFF, D_START_CMD. irq_calls.
  - unfold D_CONTRAST, D_START_CMD. irq_calls.
  - unfold D_DRAW_HOR, D_START_DAT.
    eapply irq_moves_seq; [apply irq_moves_D_SETPOS|]. irq_calls.
  - apply irq_moves_D_DRAW_VERT.
  - apply irq_moves_D_PRINT_CHAR.
  - apply irq_moves_D_PRINT_STR.
  - intros s i H. unfold exec. rewrite D_PRINT_INT_eq.
    pose proof (irq_moves_D_PRINT_STR a (printed (u16 num))
                  (with_buffer s
                     (snd (usint2decascii (u16 num)
                             (store (ssd1306_numdec_buffer s)
                                    (Z.to_nat USINT2DECASCII_MAX_DIGITS) 0))))
                  i H) as M.
    destruct (c_str_printed (u16 num)) as (E & NE);
      [unfold u16; apply Z.mod_pos_bound; lia|].
    rewrite E in M. destruct (chars_of_string (decimal (u16 num)));
      [contradiction|exact M].
Qed.

(** ** The demonstration *)

Lemma runs_delay_then (ms : Z) (k : Bus unit) (w : list event) :
  runs k w -> runs (_delay_ms ms ;; k) w.
Proof.
  intros H. change w with ([] ++ w).
  apply runs_seq; [now apply runs_silent | exact H].
Qed.

Lemma runs_literal (t : String.string) :
  Forall (fun c => c <> 0) (chars_of_string t) ->
  runs (D_PRINT_STR (literal t)) (wire (print_sessions t)).
Proof.
  intros H. unfold literal, print_sessions.
  rewrite <- (c_str_terminated _ [] H) at 2. apply runs_D_PRINT_STR.
Qed.

Lemma runs_position (x page : Z) :
  byte x -> 0 <= page < 80 ->
  runs (D_SETPOS x page) (wire [position x page]).
Proof. intros Hx Hp. rewrite wire_one. now apply runs_D_SETPOS. Qed.

Lemma runs_counter (n : nat) :
  Z.of_nat n < 65536 ->
  runs (for_down n (fun i => D_SETPOS (2 + 13 * 6) 3 ;; D_PRINT_INT i))
       (wire (flat_map counter_sessions (countdown n))).
Proof.
  induction n as [|n IH]; intros Hn; cbn [for_down countdown flat_map].
  - apply runs_ret.
  - rewrite wire_app. apply runs_seq; [|apply IH; lia].
    unfold counter_sessions.
    change (wire (position 80 3
                  :: map glyph (chars_of_string (decimal (Z.of_nat (S n))))))
      with (wire [position 80 3]
            ++ wire (map glyph (chars_of_string (decimal (Z.of_nat (S n)))))).
    apply runs_seq.
    + apply runs_position; unfold byte; lia.
    + destruct (c_str_printed (Z.of_nat (S n)) ltac:(lia)) as (E & _).
      rewrite <- E. apply runs_D_PRINT_INT.
Qed.

Ltac literal_ok :=
  apply runs_literal; vm_compute;
  repeat (constructor; [discriminate|]); constructor.

Lemma runs_D_DEMO : runs D_DEMO (wire demo_sessions).
Proof.
  unfold D_DEMO, demo_sessions. rewrite !wire_app.
  apply runs_seq; [apply runs_D_CLEAR|].
  apply runs_seq;
    [eapply runs_eq; [apply runs_D_DRAW_HOR_raw | reflexivity]|].
  apply runs_seq;
    [eapply runs_eq; [apply runs_D_DRAW_HOR_raw | reflexivity]|].
  apply runs_seq;
    [eapply runs_eq; [apply runs_D_DRAW_VERT_raw | reflexivity]|].
  apply runs_seq;
    [eapply runs_eq; [apply runs_D_DRAW_VERT_raw | reflexivity]|].
  apply runs_seq; [apply runs_position; unfold byte; lia|].
  apply runs_seq; [literal_ok|].
  apply runs_seq; [apply runs_position; unfold byte; lia|].
  apply runs_seq; [literal_ok|].
  apply runs_seq; [apply runs_position; unfold byte; lia|].
  apply runs_seq; [literal_ok|].
  apply runs_seq; [apply runs_position; unfold byte; lia|].
  apply runs_seq; [literal_ok|].
  apply runs_delay_then.
  apply runs_seq; [apply runs_D_OFF|].
  apply runs_delay_then.
  apply runs_seq; [apply runs_D_CLEAR|].
  apply runs_seq; [apply runs_D_ON|].
  apply runs_delay_then.
  apply runs_seq; [apply runs_position; unfold byte; lia|].
  apply runs_seq; [literal_ok|].
  apply runs_seq; [apply runs_counter; lia|].
  apply runs_seq; [apply runs_D_CLEAR|].
  apply runs_seq; [apply runs_position; unfold byte; lia|].
  apply runs_seq; [literal_ok|].
  apply runs_delay_then.
  apply runs_seq; [apply runs_D_CONTRAST|].
  apply runs_seq; [apply runs_position; unfold byte; lia|].
  apply runs_seq; [literal_ok|].
  apply runs_delay_then.
  apply runs_D_CONTRAST.
Qed.

Lemma irq_moves_D_CLEAR (a : bool) : irq_moves a true D_CLEAR.
Proof.
  unfold D_CLEAR, D_START_DAT.
  eapply irq_moves_seq; [apply irq_moves_D_SETPOS|]. irq_calls.
Qed.

Lemma irq_moves_D_DRAW_HOR (a : bool) (x y len : Z) :
  irq_moves a true (D_DRAW_HOR x y len).
Proof.
  unfold D_DRAW_HOR, D_START_DAT.
  eapply irq_moves_seq; [apply irq_moves_D_SETPOS|]. irq_calls.
Qed.

Lemma irq_moves_D_ON (a : bool) : irq_moves a true D_ON.
Proof. unfold D_ON, D_START_CMD. irq_calls. Qed.

Lemma irq_moves_D_OFF (a : bool) : irq_moves a true D_OFF.
Proof. unfold D_OFF, D_START_CMD. irq_calls. Qed.

Lemma irq_moves_D_CONTRAST (a : bool) (contrast : Z) :
  irq_moves a true (D_CONTRAST contrast).
Proof. unfold D_CONTRAST, D_START_CMD. irq_calls. Qed.

Lemma irq_moves_print_enabled (str : list Z) :
  irq_moves true true (D_PRINT_STR str).
Proof.
  pose proof (irq_moves_D_PRINT_STR true str) as H.
  now destruct (c_str str).
Qed.

Lemma irq_moves_D_PRINT_INT (num : Z) :
  irq_moves true true (D_PRINT_INT num).
Proof.
  intros s i H. unfold exec. rewrite D_PRINT_INT_eq.
  apply (irq_moves_print_enabled (printed num)
           (with_buffer s
              (snd (usint2decascii num
                      (store (ssd1306_numdec_buffer s)
                             (Z.to_nat USINT2DECASCII_MAX_DIGITS) 0))))).
  exact H.
Qed.

Lemma irq_moves_for_down (body : Z -> Bus unit) :
  (forall i, irq_moves true true (body i)) ->
  forall n, irq_moves true true (for_down n body).
Proof.
  intros Hb. induction n as [|n IH]; cbn [for_down].
  - apply irq_moves_ret.
  - eapply irq_moves_seq; [apply Hb | apply IH].
Qed.

Lemma irq_moves_D_DEMO (a : bool) : irq_moves a true D_DEMO.
Proof.
  unfold D_DEMO.
  apply (irq_moves_seq a true true); [apply irq_moves_D_CLEAR|].
  apply (irq_moves_seq true true true); [apply irq_moves_D_DRAW_HOR|].
  apply (irq_moves_seq true true true); [apply irq_moves_D_DRAW_HOR|].
  apply (irq_moves_seq true true true); [apply irq_moves_D_DRAW_VERT|].
  apply (irq_moves_seq true true true); [apply irq_moves_D_DRAW_VERT|].
  apply (irq_moves_seq true true true); [apply irq_moves_D_SETPOS|].
  apply (irq_moves_seq true true true); [apply irq_moves_print_enabled|].
  apply (irq_moves_seq true true true); [apply irq_moves_D_SETPOS|].
  apply (irq_moves_seq true true true); [apply irq_moves_print_enabled|].
  apply (irq_moves_seq true true true); [apply irq_moves_D_SETPOS|].
  apply (irq_moves_seq true true true); [apply irq_moves_print_enabled|].
  apply (irq_moves_seq true true true); [apply irq_moves_D_SETPOS|].
  apply (irq_moves_seq true true true); [apply irq_moves_print_enabled|].
  apply (irq_moves_seq true true true); [apply irq_moves_delay|].
  apply (irq_moves_seq true true true); [apply irq_moves_D_OFF|].
  apply (irq_moves_seq true true true); [apply irq_moves_delay|].
  apply (irq_moves_seq true true true); [apply irq_moves_D_CLEAR|].
  apply (irq_moves_seq true true true); [apply irq_moves_D_ON|].
  apply (irq_moves_seq true true true); [apply irq_moves_delay|].
  apply (irq_moves_seq true true true); [apply irq_moves_D_SETPOS|].
  apply (irq_moves_seq true true true); [apply irq_moves_print_enabled|].
  apply (irq_moves_seq true true true);
    [apply irq_moves_for_down; intros i;
     apply (irq_moves_seq true true true);
     [apply irq_moves_D_SETPOS | apply irq_moves_D_PRINT_INT]|].
  apply (irq_moves_seq true true true); [apply irq_moves_D_CLEAR|].
  apply (irq_moves_seq true true true); [apply irq_moves_D_SETPOS|].
  apply (irq_moves_seq true true true); [apply irq_moves_print_enabled|].
  apply (irq_moves_seq true true true); [apply irq_moves_delay|].
  apply (irq_moves_seq true true true); [apply irq_moves_D_CONTRAST|].
  apply (irq_moves_seq true true true); [apply irq_moves_D_SETPOS|].
  apply (irq_moves_seq true true true); [apply irq_moves_print_enabled|].
  apply (irq_moves_seq true true true); [apply irq_moves_delay|].
  apply irq_moves_D_CONTRAST.
Qed.

(** X12.  On any hardware [D_DEMO] puts on the bus, in order: a clear; the
    top and bottom lines, 127 bytes each; the left and right lines, each
    written as [0xFF] on pages 0 to 8; the four lines of the message; the
    display off, cleared and on again; the counter label and the numerals
    of 800 down to 1, each printed from column 80 of page 3; a clear and
    the two contrast messages with the contrast set to 0xFF and then 0x00.
    The error handler blinks once for each action of these that is not
    acknowledged. *)
Theorem D_DEMO_traffic (s : hw) :
  traffic (log (exec D_DEMO s)) = traffic (log s) ++ wire demo_sessions
  /\ pin_writes (log (exec D_DEMO s))
     = (pin_writes (log s)
        + 10 * nacks (twsr_feed s) (bus_steps s) (wire demo_sessions))%nat.
Proof.
  destruct (runs_D_DEMO s) as (T & _ & _ & P). now split.
Qed.

(** X13.  Started with the bus idle, [D_DEMO] leaves it idle, having
    opened and closed its sessions one after the other; it makes every bus
    action with interrupts disabled and returns with them enabled. *)
Theorem D_DEMO_keeps_the_bus (s : hw) (i a : bool) :
  line_after Idle (log s) = Some Idle ->
  irq_after i (log s) = Some a ->
  line_after Idle (log (exec D_DEMO s)) = Some Idle
  /\ irq_after i (log (exec D_DEMO s)) = Some true.
Proof.
  intros L I. split.
  - rewrite <- line_after_traffic, (traffic_of_runs _ _ s runs_D_DEMO).
    rewrite line_after_app, line_after_traffic, L.
    apply line_after_wire.
  - now apply (irq_moves_D_DEMO a).
Qed.

End Driver.

(** * Instances on the board *)

(** C1 as stated fails at two inputs in its range.  A line of one pixel
    from [y = 0] lies in one page, whose single byte is the two masks
    combined, [0x7F], not the start mask [0xFF]; and a line of 8 pixels from
    [y = 0] gets two page writes where the ceiling of 8/8 counts one. *)
Lemma vertical_line_by_ceiling_fails :
  ~ vertical_line_by_ceiling board_SLA_W board_ERROR_PIN 0 0 1
  /\ ~ vertical_line_by_ceiling board_SLA_W board_ERROR_PIN 0 0 8.
Proof.
  split; intros (bytes & Hd & Hl & Hf); specialize (Hd silent_bus).
  - change (ceil_div (0 mod 8 + 1) 8) with 1 in Hl.
    destruct bytes as [|b [|b' bytes]]; cbn [List.length] in Hl; try lia.
    destruct Hf as (Hf & _). cbn in Hf. subst b.
    vm_compute in Hd. discriminate Hd.
  - change (ceil_div (0 mod 8 + 8) 8) with 1 in Hl.
    destruct bytes as [|b [|b' bytes]]; cbn [List.length] in Hl; try lia.
    vm_compute in Hd. discriminate Hd.
Qed.

Lemma D_DRAW_VERT_page_writes_witness :
  byte 0 /\ 0 <= 5 <= 63 /\ 1 <= 20 <= 64 /\ 5 + 20 <= 64
  /\ (5 + 20) mod 8 <> 0
  /\ exists bytes,
       draws_pages board_SLA_W board_ERROR_PIN 0 5 20 bytes
       /\ Z.of_nat (List.length bytes) = ceil_div (5 mod 8 + 20) 8
       /\ (List.length bytes = 1%nat ->
           bytes = [Z.land (Z.shiftl 0xFF (5 mod 8))
                           (Z.shiftr 0xFF ((5 + 20) mod 8))])
       /\ ((1 < List.length bytes)%nat ->
           first_last_middle (u8 (Z.shiftl 0xFF (5 mod 8)))
                             (Z.shiftr 0xFF ((5 + 20) mod 8)) bytes).
Proof.
  assert (B : byte 0) by (unfold byte; lia).
  assert (Y : 0 <= 5 <= 63) by lia.
  assert (L : 1 <= 20 <= 64) by lia.
  assert (S : 5 + 20 <= 64) by lia.
  assert (E : (5 + 20) mod 8 <> 0) by (vm_compute; discriminate).
  repeat (split; [assumption|]).
  exact (D_DRAW_VERT_page_writes board_SLA_W board_ERROR_PIN 0 5 20 B Y L S E).
Defined.

Lemma usint2decascii_decimal_witness :
  0 <= 7 <= 65535
  /\ cells (snd (usint2decascii 7 (fun _ => 0)))
           (Z.to_nat (fst (usint2decascii 7 (fun _ => 0)))) 5
     = chars_of_string "7"%string.
Proof.
  assert (R : 0 <= 7 <= 65535) by lia.
  split; [exact R|].
  exact (proj2 (proj1 (proj2 (proj2
           (usint2decascii_decimal board_SLA_W board_ERROR_PIN (fun _ => 0))))
           7 (fun _ => 0) R)).
Defined.

Lemma sessions_are_bracketed_witness :
  line_after Idle (log silent_bus) = Some Idle
  /\ line_after Idle
       (log (exec (run_op board_SLA_W board_ERROR_PIN 0x21 0x22 (fun _ => 0)
                          (OpDrawVert 0 5 20))
                  silent_bus))
     = Some Idle.
Proof.
  assert (I : line_after Idle (log silent_bus) = Some Idle) by reflexivity.
  split; [exact I|].
  exact (sessions_are_bracketed board_SLA_W board_ERROR_PIN 0x21 0x22
           (fun _ => 0) (OpDrawVert 0 5 20) silent_bus I).
Defined.

Lemma nack_signals_error_witness :
  acked (twsr_feed silent_bus) (bus_steps silent_bus) 0x28 = false
  /\ twi_checked board_ERROR_PIN (EvTx 0xAF) 0x28 silent_bus
     = (tt, exec (D_ERROR board_ERROR_PIN)
                 (exec (twi_action (EvTx 0xAF)) silent_bus)).
Proof.
  assert (N : acked (twsr_feed silent_bus) (bus_steps silent_bus) 0x28 = false)
    by reflexivity.
  split; [exact N|].
  exact (proj1 (nack_signals_error_and_operation_continues
                  board_SLA_W board_ERROR_PIN 0x21 0x22 (fun _ => 0))
               (EvTx 0xAF) 0x28 silent_bus N).
Defined.

Lemma D_DRAW_HOR_traffic_witness :
  byte 3 /\ byte 10 /\ byte 5
  /\ traffic (log (exec (D_DRAW_HOR board_SLA_W board_ERROR_PIN 3 10 5)
                        silent_bus))
     = traffic (log silent_bus)
       ++ wire board_SLA_W
            [position 3 (10 / 8);
             data (repeat (Z.shiftl 1 (10 mod 8)) (Z.to_nat 5))].
Proof.
  assert (X : byte 3) by (unfold byte; lia).
  assert (Y : byte 10) by (unfold byte; lia).
  assert (L : byte 5) by (unfold byte; lia).
  repeat (split; [assumption|]).
  exact (D_DRAW_HOR_traffic board_SLA_W board_ERROR_PIN 3 10 5 silent_bus
           X Y L).
Defined.

Lemma D_DRAW_VERT_zero_length_witness :
  byte 0 /\ byte 8
  /\ traffic (log (exec (D_DRAW_VERT board_SLA_W board_ERROR_PIN 0 8 0)
                        silent_bus))
     = traffic (log silent_bus)
       ++ wire board_SLA_W (page_write 0 (1, 0xFF)).
Proof.
  assert (X : byte 0) by (unfold byte; lia).
  assert (Y : byte 8) by (unfold byte; lia).
  repeat (split; [assumption|]).
  exact (proj1 (D_DRAW_VERT_zero_length board_SLA_W board_ERROR_PIN 0 8 X Y)
               silent_bus).
Defined.

(** ** Instances of the further properties *)

Lemma D_ERROR_blinks_and_restores_witness :
  byte (PORTD silent_bus) /\ 0 <= board_ERROR_PIN < 8
  /\ exec (D_ERROR board_ERROR_PIN) silent_bus
     = mkHw (twsr_feed silent_bus) (bus_steps silent_bus) (PORTD silent_bus)
            (ssd1306_numdec_buffer silent_bus)
            (log silent_bus
             ++ concat (repeat [EvPortD (Z.lxor (PORTD silent_bus)
                                                (Z.shiftl 1 board_ERROR_PIN));
                                EvDelay 300;
                                EvPortD (PORTD silent_bus);
                                EvDelay 300] 5)).
Proof.
  assert (P : byte (PORTD silent_bus)) by (unfold byte; cbn; lia).
  assert (E : 0 <= board_ERROR_PIN < 8) by (unfold board_ERROR_PIN; lia).
  do 2 (split; [assumption|]).
  exact (D_ERROR_blinks_and_restores board_ERROR_PIN silent_bus P E).
Defined.

Lemma D_SETPOS_roundtrip_witness :
  byte 80 /\ 0 <= 3 <= 7
  /\ exists b0 b1 b2,
       (forall s,
           traffic (log (exec (D_SETPOS board_SLA_W board_ERROR_PIN 80 3) s))
           = traffic (log s) ++ wire board_SLA_W [command [b0; b1; b2]])
       /\ 0xB0 <= b0 <= 0xB7 /\ 0x10 <= b1 <= 0x1F /\ 0x00 <= b2 <= 0x0F
       /\ 3 = b0 - 0xB0
       /\ 80 = (b1 - 0x10) * 16 + b2.
Proof.
  assert (X : byte 80) by (unfold byte; lia).
  assert (P : 0 <= 3 <= 7) by lia.
  do 2 (split; [assumption|]).
  exact (D_SETPOS_roundtrip board_SLA_W board_ERROR_PIN 80 3 X P).
Defined.

Lemma power_and_contrast_traffic_witness :
  byte 0xFF
  /\ traffic (log (exec (D_CONTRAST board_SLA_W board_ERROR_PIN 0xFF)
                        silent_bus))
     = traffic (log silent_bus) ++ wire board_SLA_W [command [0x81; 0xFF]].
Proof.
  assert (C : byte 0xFF) by (unfold byte; lia).
  split; [exact C|].
  exact (proj2 (proj2 (power_and_contrast_traffic board_SLA_W board_ERROR_PIN
                         0xFF silent_bus C))).
Defined.

Lemma D_PRINT_CHAR_traffic_witness :
  byte 65
  /\ exists cols,
       (forall s,
           traffic (log (exec (D_PRINT_CHAR board_SLA_W board_ERROR_PIN
                                            (fun _ => 0) 65) s))
           = traffic (log s) ++ wire board_SLA_W [data (0x00 :: cols)])
       /\ List.length cols = 5%nat
       /\ (32 <= 65 <= 122 -> cols = font_columns 65)
       /\ (65 < 32 \/ 122 < 65 ->
           cols = map (fun i => u8 ((fun _ => 0) (u8 (65 - 32) * 5 + i)))
                      [0; 1; 2; 3; 4]).
Proof.
  assert (C : byte 65) by (unfold byte; lia).
  split; [exact C|].
  exact (D_PRINT_CHAR_traffic board_SLA_W board_ERROR_PIN (fun _ => 0) 65 C).
Defined.

Lemma D_PRINT_STR_traffic_witness :
  Forall (fun c => c <> 0) [72; 105]
  /\ traffic (log (exec (D_PRINT_STR board_SLA_W board_ERROR_PIN (fun _ => 0)
                                     ([72; 105] ++ 0 :: [33]))
                        silent_bus))
     = traffic (log silent_bus)
       ++ wire board_SLA_W (map (glyph (fun _ => 0)) [72; 105]).
Proof.
  assert (F : Forall (fun c => c <> 0) [72; 105])
    by (repeat (constructor; [discriminate|]); constructor).
  split; [exact F|].
  exact (D_PRINT_STR_traffic board_SLA_W board_ERROR_PIN (fun _ => 0)
           [72; 105] [33] silent_bus F).
Defined.

Lemma usint2decascii_writes_five_cells_witness :
  (5 <= 5)%nat
  /\ snd (usint2decascii 42 (fun _ => 7)) 5%nat = (fun _ : nat => 7) 5%nat.
Proof.
  assert (I : (5 <= 5)%nat) by lia.
  split; [exact I|].
  exact (usint2decascii_writes_five_cells 42 (fun _ => 7) 5 I).
Defined.

Lemma usint2decascii_right_aligned_witness :
  0 <= 42 <= 65535
  /\ cells (snd (usint2decascii 42 (fun _ => 0))) 0 5
     = repeat 32 (Z.to_nat (fst (usint2decascii 42 (fun _ => 0))))
       ++ chars_of_string (decimal 42)
  /\ fst (usint2decascii 42 (fun _ => 0))
     = 5 - Z.of_nat (List.length (chars_of_string (decimal 42))).
Proof.
  assert (R : 0 <= 42 <= 65535) by lia.
  split; [exact R|].
  exact (usint2decascii_right_aligned 42 (fun _ => 0) R).
Defined.

Lemma D_PRINT_INT_traffic_witness :
  0 <= 800 <= 65535
  /\ traffic (log (exec (D_PRINT_INT board_SLA_W board_ERROR_PIN (fun _ => 0)
                                     800) silent_bus))
     = traffic (log silent_bus)
       ++ wire board_SLA_W
            (map (glyph (fun _ => 0)) (chars_of_string (decimal 800))).
Proof.
  assert (R : 0 <= 800 <= 65535) by lia.
  split; [exact R|].
  exact (D_PRINT_INT_traffic board_SLA_W board_ERROR_PIN (fun _ => 0) 800
           silent_bus R).
Defined.

Lemma D_DRAW_VERT_every_input_witness :
  byte 127 /\ byte 200 /\ byte 100
  /\ exists bytes,
       draws_pages board_SLA_W board_ERROR_PIN 127 200 100 bytes
       /\ Z.of_nat (List.length bytes) = (200 + 100) / 8 - 200 / 8 + 1
       /\ ((200 + 100) / 8 = 200 / 8 ->
           bytes = [Z.land (Z.shiftl 0xFF (200 mod 8))
                           (Z.shiftr 0xFF ((200 + 100) mod 8))])
       /\ (200 / 8 < (200 + 100) / 8 ->
           first_last_middle (u8 (Z.shiftl 0xFF (200 mod 8)))
                             (Z.shiftr 0xFF ((200 + 100) mod 8)) bytes).
Proof.
  assert (X : byte 127) by (unfold byte; lia).
  assert (Y : byte 200) by (unfold byte; lia).
  assert (L : byte 100) by (unfold byte; lia).
  do 3 (split; [assumption|]).
  exact (D_DRAW_VERT_every_input board_SLA_W board_ERROR_PIN 127 200 100
           X Y L).
Defined.

(** The left line of the demonstration: 64 pixels from row 0 end on the
    boundary after page 7, and the last write goes to page 8. *)
Lemma D_DRAW_VERT_writes_past_boundary_witness :
  byte 0 /\ byte 0 /\ byte 64 /\ 1 <= 64 /\ (0 + 64) mod 8 = 0
  /\ exists bytes,
       draws_pages board_SLA_W board_ERROR_PIN 0 0 64 (bytes ++ [0xFF])
       /\ 0 / 8 + Z.of_nat (List.length bytes) = (0 + 64) / 8
       /\ (0 + 64 - 1) / 8 = (0 + 64) / 8 - 1.
Proof.
  assert (X : byte 0) by (unfold byte; lia).
  assert (L : byte 64) by (unfold byte; lia).
  assert (L1 : 1 <= 64) by lia.
  assert (M : (0 + 64) mod 8 = 0) by reflexivity.
  do 5 (split; [assumption|]).
  exact (D_DRAW_VERT_writes_past_boundary board_SLA_W board_ERROR_PIN 0 0 64
           X X L L1 M).
Defined.

Lemma operations_mask_and_enable_interrupts_witness :
  irq_after false (log silent_bus) = Some false
  /\ irq_after false
       (log (exec (run_op board_SLA_W board_ERROR_PIN 0x21 0x22 (fun _ => 0)
                          OpClear) silent_bus))
     = Some true.
Proof.
  assert (I : irq_after false (log silent_bus) = Some false) by reflexivity.
  split; [exact I|].
  exact (operations_mask_and_enable_interrupts board_SLA_W board_ERROR_PIN
           0x21 0x22 (fun _ => 0) OpClear silent_bus false false I).
Defined.

Lemma D_DEMO_keeps_the_bus_witness :
  line_after Idle (log silent_bus) = Some Idle
  /\ irq_after true (log silent_bus) = Some true
  /\ line_after Idle
       (log (exec (D_DEMO board_SLA_W board_ERROR_PIN (fun _ => 0))
                  silent_bus)) = Some Idle
  /\ irq_after true
       (log (exec (D_DEMO board_SLA_W board_ERROR_PIN (fun _ => 0))
                  silent_bus)) = Some true.
Proof.
  assert (L : line_after Idle (log silent_bus) = Some Idle) by reflexivity.
  assert (I : irq_after true (log silent_bus) = Some true) by reflexivity.
  do 2 (split; [assumption|]).
  exact (D_DEMO_keeps_the_bus board_SLA_W board_ERROR_PIN (fun _ => 0)
           silent_bus true true L I).
Defined.
